(** * Crypto sentiment dashboard: the data-acquisition and aggregation pipeline

    A shallow embedding of [src/app.py]: the cached, rate-limited and retried
    fetch operations, the sentiment aggregation, the advisory mapping, the
    price alert and the control flow of [main], with the properties of the
    specification stated and settled over them.

    Conventions of the embedding
    - Python floats (polarities, prices, wall-clock seconds) are exact
      rationals [Q]; the literal [0.1] is [1#10].  Rounding is outside the
      model.
    - Stateful code is a state-and-exception monad [M] over a [World] that
      holds the clock, the replies the external services will give, the log
      of requests issued, the Streamlit output and the process-wide caches.
    - Python dicts used as maps are [gmap]s.
    - Messages are kept by their text, without the emoji in front of it;
      page markup and styling are left out. *)

From Stdlib Require Import ZArith QArith Qminmax Lia Lqa String Ascii List Bool.
From stdpp Require Import base option list strings gmap.

Local Open Scope Q_scope.

(** ** Python values and exceptions *)

(** [PyException] is any exception deriving from [Exception], with its
    [str(e)]: what [except Exception] catches and the retry wrapper reacts
    to.  [StopException] is raised by [st.stop()]; it derives from
    [BaseException], so neither of them sees it. *)
Inductive Exn : Type :=
| PyException (msg : string)
| StopException.

Inductive Result (A : Type) : Type :=
| Returned (v : A)
| Raised (e : Exn).
Arguments Returned {A} v.
Arguments Raised {A} e.

(** ** The external services *)

Record CoinInfo : Type := mkCoinInfo {
  info_name : string;
  info_symbol : string;
  info_current_price : Q;
  info_price_change_percentage_24h : Q;
  info_market_cap : Q;
  info_description : string;
  info_homepage : string
}.

(** The decoded JSON body of a reply: the list of id and symbol pairs, the
    metadata of a coin, or the price points as pairs of a timestamp in
    milliseconds and a price.  [MalformedBody] stands for every body on which
    [response.json()] or the code that takes the body apart raises; a body of
    the kind of another endpoint is read as such a body. *)
Inductive Body : Type :=
| CoinsBody (coins : list (string * string))
| InfoBody (info : CoinInfo)
| ChartBody (prices : list (Q * Q))
| MalformedBody.

(** What [requests.get] meets: a transport failure, or a reply with a status
    code and a body. *)
Inductive Reply : Type :=
| ConnectionError (msg : string)
| HttpReply (status_code : Z) (body : Body).

Inductive Request : Type :=
| GetCoinsList
| GetCoin (coin_id : string)
| GetMarketChart (coin_id : string) (days : Z)
| RedditHot
| RedditSubmission (index : nat).

(** One step of the iteration over the hot submissions: fetching the next
    submission and its comment forest raises, or gives the bodies of its
    comments. *)
Inductive SubmissionFetch : Type :=
| FetchError (msg : string)
| SubmissionComments (bodies : list string).

(** ** Streamlit output *)

Inductive Sentiment : Type := Positive | Negative | Neutral.

Record SentimentRecord : Type := mkRecord {
  rec_comment : string;
  rec_polarity : Q;
  rec_sentiment : Sentiment
}.

Inductive TimePeriod : Type :=
| Day1 | Days7 | Days30 | Days90 | Days180 | Year1.

Inductive Alert : Type :=
| AlertReached (symbol : string) (target : Q)
| AlertDroppedBelow (symbol : string) (target : Q).

Inductive UiEvent : Type :=
| st_error (msg : string)
| st_warning (msg : string)
| st_info (msg : string)
| st_success (msg : string)
| st_header (title : string)
| st_dataframe (rows : list SentimentRecord)
| st_coin_info (info : CoinInfo)
| st_plotly_chart (dates prices : list Q) (coin_name : string) (period : TimePeriod)
| st_alert (a : Alert)
| st_widgets (options : list string)
| st_footer.

(** ** The world *)

Record World : Type := mkWorld {
  clock : Q;
  slept : list Q;
  net : list Reply;
  reddit_net : list (list SubmissionFetch);
  requests : list Request;
  ui : list UiEvent;
  last_time_called : Q;
  cache_all_coins : gmap unit (gmap string string * Q);
  cache_coin_info : gmap string (option CoinInfo * Q);
  cache_market_data : gmap (string * Z) ((list Q * list Q) * Q);
  analyze_clicked : bool
}.

Definition M (A : Type) : Type := World -> Result A * World.

Definition ret {A} (v : A) : M A := fun w => (Returned v, w).
Definition raise {A} (e : Exn) : M A := fun w => (Raised e, w).
Definition bind {A B} (m : M A) (k : A -> M B) : M B :=
  fun w => match m w with
           | (Returned v, w') => k v w'
           | (Raised e, w') => (Raised e, w')
           end.

Notation "'let!' x ':=' m 'in' k" := (bind m (fun x => k))
  (at level 10, x name, m at level 200, k at level 200).
Notation "'exec' m 'in' k" := (bind m (fun _ => k))
  (at level 10, m at level 200, k at level 200).

(** [try: body except Exception as e: handler(str(e))] *)
Definition try_except {A} (body : M A) (handler : string -> M A) : M A :=
  fun w => match body w with
           | (Raised (PyException msg), w') => handler msg w'
           | other => other
           end.

(** Field updates of the world. *)
Definition set_clock (t : Q) (w : World) : World :=
  mkWorld t (slept w) (net w) (reddit_net w) (requests w) (ui w)
          (last_time_called w) (cache_all_coins w) (cache_coin_info w)
          (cache_market_data w) (analyze_clicked w).
Definition set_slept (l : list Q) (w : World) : World :=
  mkWorld (clock w) l (net w) (reddit_net w) (requests w) (ui w)
          (last_time_called w) (cache_all_coins w) (cache_coin_info w)
          (cache_market_data w) (analyze_clicked w).
Definition set_net (l : list Reply) (w : World) : World :=
  mkWorld (clock w) (slept w) l (reddit_net w) (requests w) (ui w)
          (last_time_called w) (cache_all_coins w) (cache_coin_info w)
          (cache_market_data w) (analyze_clicked w).
Definition set_reddit_net (l : list (list SubmissionFetch)) (w : World) : World :=
  mkWorld (clock w) (slept w) (net w) l (requests w) (ui w)
          (last_time_called w) (cache_all_coins w) (cache_coin_info w)
          (cache_market_data w) (analyze_clicked w).
Definition set_requests (l : list Request) (w : World) : World :=
  mkWorld (clock w) (slept w) (net w) (reddit_net w) l (ui w)
          (last_time_called w) (cache_all_coins w) (cache_coin_info w)
          (cache_market_data w) (analyze_clicked w).
Definition set_ui (l : list UiEvent) (w : World) : World :=
  mkWorld (clock w) (slept w) (net w) (reddit_net w) (requests w) l
          (last_time_called w) (cache_all_coins w) (cache_coin_info w)
          (cache_market_data w) (analyze_clicked w).
Definition set_last_time_called (t : Q) (w : World) : World :=
  mkWorld (clock w) (slept w) (net w) (reddit_net w) (requests w) (ui w)
          t (cache_all_coins w) (cache_coin_info w)
          (cache_market_data w) (analyze_clicked w).
Definition set_cache_all_coins (c : gmap unit (gmap string string * Q)) (w : World) : World :=
  mkWorld (clock w) (slept w) (net w) (reddit_net w) (requests w) (ui w)
          (last_time_called w) c (cache_coin_info w)
          (cache_market_data w) (analyze_clicked w).
Definition set_cache_coin_info (c : gmap string (option CoinInfo * Q)) (w : World) : World :=
  mkWorld (clock w) (slept w) (net w) (reddit_net w) (requests w) (ui w)
          (last_time_called w) (cache_all_coins w) c
          (cache_market_data w) (analyze_clicked w).
Definition set_cache_market_data (c : gmap (string * Z) ((list Q * list Q) * Q)) (w : World) : World :=
  mkWorld (clock w) (slept w) (net w) (reddit_net w) (requests w) (ui w)
          (last_time_called w) (cache_all_coins w) (cache_coin_info w)
          c (analyze_clicked w).
Definition set_analyze_clicked (b : bool) (w : World) : World :=
  mkWorld (clock w) (slept w) (net w) (reddit_net w) (requests w) (ui w)
          (last_time_called w) (cache_all_coins w) (cache_coin_info w)
          (cache_market_data w) b.

Definition emit (e : UiEvent) : M unit :=
  fun w => (Returned tt, set_ui (ui w ++ [e]) w).

(** [time.sleep(dt)] *)
Definition sleep (dt : Q) : M unit :=
  fun w => (Returned tt, set_slept (slept w ++ [dt]) (set_clock (clock w + dt) w)).

(** [time.time()] *)
Definition time_time : M Q := fun w => (Returned (clock w), w).

(** [x < y] *)
Definition Qltb (x y : Q) : bool := negb (Qle_bool y x).

(** ** The decorators *)

(** [rate_limited(max_per_second)]: the closure variable [last_time_called]
    lives in the world ([fetch_all_coins] is the only decorated function). *)
Definition rate_limited {A} (max_per_second : Q) (func : M A) : M A :=
  let min_interval := 1 / max_per_second in
  fun w =>
    (let! now := time_time in
     let elapsed := now - last_time_called w in
     let wait := min_interval - elapsed in
     exec (if Qltb 0 wait then sleep wait else ret tt) in
     let! now' := time_time in
     exec (fun w' => (Returned tt, set_last_time_called now' w')) in
     func) w.

(** [wait_exponential(multiplier, min, max)] of tenacity: after the attempt
    numbered [attempt_number] (from 1) wait
    [max(max(0, min), min(multiplier * 2 ** (attempt_number - 1), max))]. *)
Definition wait_exponential (multiplier min max : Q) (attempt_number : nat) : Q :=
  Qmax (Qmax 0 min) (Qmin (multiplier * inject_Z (2 ^ Z.of_nat (attempt_number - 1))) max).

(** The loop of tenacity's [retry]: call; on an exception deriving from
    [Exception], stop with a [RetryError] when the attempt number has reached
    the ceiling, otherwise sleep and call again.  [remaining] counts the
    attempts that may still follow the current one. *)
Fixpoint retry_from {A} (wait : nat -> Q) (remaining attempt_number : nat)
    (func : M A) : M A :=
  fun w =>
    match func w with
    | (Raised (PyException msg), w') =>
        match remaining with
        | O => (Raised (PyException ("RetryError: " +:+ msg)), w')
        | S r =>
            (exec sleep (wait attempt_number) in
             retry_from wait r (S attempt_number) func) w'
        end
    | other => other
    end.

(** [retry(stop=stop_after_attempt(n), wait=...)] *)
Definition retry {A} (stop_after_attempt : nat) (wait : nat -> Q) (func : M A) : M A :=
  retry_from wait (stop_after_attempt - 1) 1 func.

(** The retry policy every fetch function is decorated with. *)
Definition retry_policy {A} : M A -> M A :=
  retry 3 (wait_exponential 1 4 10).

(** [st.cache_data(ttl)]: results are stored per argument tuple with the time
    they were stored at, and served while younger than [ttl]; a call that
    raises stores nothing.  [get] and [set] select the store of the decorated
    function in the world. *)
Definition cache_data {K V} `{Countable K}
    (get : World -> gmap K (V * Q)) (set : gmap K (V * Q) -> World -> World)
    (ttl : Q) (func : K -> M V) (k : K) : M V :=
  fun w =>
    let miss :=
      match func k w with
      | (Returned v, w') => (Returned v, set (<[k := (v, clock w')]> (get w')) w')
      | (Raised e, w') => (Raised e, w')
      end in
    match get w !! k with
    | Some (v, stored) => if Qltb (clock w - stored) ttl then (Returned v, w) else miss
    | None => miss
    end.

(** ** requests *)

(** The world once a request was issued: the request is logged and the next
    reply of the service consumed. *)
Definition requested (req : Request) (w : World) : World :=
  set_net (tl (net w)) (set_requests (requests w ++ [req]) w).

(** [requests.get(url, ...)]; no reply at all is a timeout. *)
Definition requests_get (req : Request) : M (Z * Body) :=
  fun w =>
    match net w with
    | [] => (Raised (PyException "ReadTimeout"), requested req w)
    | ConnectionError msg :: _ => (Raised (PyException msg), requested req w)
    | HttpReply status body :: _ => (Returned (status, body), requested req w)
    end.

(** [response.raise_for_status()] *)
Definition raise_for_status (response : Z * Body) : M unit :=
  if ((400 <=? response.1) && (response.1 <? 600))%Z
  then raise (PyException "HTTPError")
  else ret tt.

(** ** Data fetching functions *)

(** [{coin["id"]: coin["symbol"] for coin in response.json()}]: later entries
    replace earlier ones with the same id. *)
Definition coin_dict (coins : list (string * string)) : gmap string string :=
  fold_left (fun d coin => <[coin.1 := coin.2]> d) coins ∅.

Definition json_coins (response : Z * Body) : M (list (string * string)) :=
  match response.2 with
  | CoinsBody coins => ret coins
  | _ => raise (PyException "TypeError")
  end.

Definition json_info (response : Z * Body) : M CoinInfo :=
  match response.2 with
  | InfoBody info => ret info
  | _ => raise (PyException "JSONDecodeError")
  end.

(** [response.json().get("prices", [])]; a body without the key counts as
    [ChartBody []]. *)
Definition json_prices (response : Z * Body) : M (list (Q * Q)) :=
  match response.2 with
  | ChartBody prices => ret prices
  | _ => raise (PyException "AttributeError")
  end.

Definition fetch_all_coins_body : M (gmap string string) :=
  try_except
    (let! response := requests_get GetCoinsList in
     exec raise_for_status response in
     let! coins := json_coins response in
     ret (coin_dict coins))
    (fun e =>
     exec emit (st_error ("Failed to fetch coins: " +:+ e)) in
     ret ∅).

Definition fetch_all_coins : M (gmap string string) :=
  cache_data cache_all_coins set_cache_all_coins 3600
    (fun _ : unit => rate_limited 1 (retry_policy fetch_all_coins_body)) tt.

Definition fetch_coin_info_body (coin_id : string) : M (option CoinInfo) :=
  try_except
    (let! response := requests_get (GetCoin coin_id) in
     exec raise_for_status response in
     let! info := json_info response in
     ret (Some info))
    (fun e =>
     exec emit (st_error ("Failed to fetch info for " +:+ coin_id +:+ ": " +:+ e)) in
     ret None).

Definition fetch_coin_info : string -> M (option CoinInfo) :=
  cache_data cache_coin_info set_cache_coin_info 600
    (fun coin_id => retry_policy (fetch_coin_info_body coin_id)).

(** The timestamps of the service are milliseconds; a date is kept as its
    seconds since the epoch, [d / 1000]. *)
Definition fetch_market_data_body (coin_id : string) (days : Z) : M (list Q * list Q) :=
  try_except
    (let! response := requests_get (GetMarketChart coin_id days) in
     exec raise_for_status response in
     let! data := json_prices response in
     match data with
     | _ :: _ =>
         ret (List.map (fun dp : Q * Q => dp.1 / 1000) data,
              List.map (fun dp : Q * Q => dp.2) data)
     | [] => ret ([], [])
     end)
    (fun e =>
     exec emit (st_error ("Failed to fetch market data: " +:+ e)) in
     ret ([], [])).

Definition fetch_market_data (coin_id : string) (days : Z) : M (list Q * list Q) :=
  cache_data cache_market_data set_cache_market_data 300
    (fun k : string * Z => retry_policy (fetch_market_data_body k.1 k.2))
    (coin_id, days).

(** *** Reddit *)

(** [str.lower()], on ASCII. *)
Definition lower_ascii (c : ascii) : ascii :=
  let n := nat_of_ascii c in
  if ((65 <=? n) && (n <=? 90))%nat then ascii_of_nat (n + 32) else c.

Fixpoint lower (s : string) : string :=
  match s with
  | EmptyString => EmptyString
  | String c rest => String (lower_ascii c) (lower rest)
  end.

(** [str.upper()], on ASCII. *)
Definition upper_ascii (c : ascii) : ascii :=
  let n := nat_of_ascii c in
  if ((97 <=? n) && (n <=? 122))%nat then ascii_of_nat (n - 32) else c.

Fixpoint upper (s : string) : string :=
  match s with
  | EmptyString => EmptyString
  | String c rest => String (upper_ascii c) (upper rest)
  end.

(** [needle in hay] on strings. *)
Fixpoint contains (needle hay : string) : bool :=
  if String.prefix needle hay then true
  else match hay with
       | EmptyString => false
       | String _ rest => contains needle rest
       end.

Definition mentions (coin_symbol body : string) : bool :=
  contains (lower coin_symbol) (lower body).

(** [l[:k]] *)
Definition slice_to {A} (l : list A) (k : Z) : list A :=
  if (0 <=? k)%Z then firstn (Z.to_nat k) l
  else firstn (length l - Z.to_nat (- k)) l.

(** The world once the hot listing was asked for. *)
Definition listed (w : World) : World :=
  set_reddit_net (tl (reddit_net w)) (set_requests (requests w ++ [RedditHot]) w).

(** [reddit.subreddit("cryptocurrency").hot(limit=n)]: the listing of the
    moment, at most [n] submissions, fetched as the loop asks for them; a
    service that cannot be reached fails at the first of them. *)
Definition reddit_hot (n : nat) : M (list SubmissionFetch) :=
  fun w =>
    match reddit_net w with
    | [] => (Returned [FetchError "RequestException"], listed w)
    | feed :: _ => (Returned (firstn n feed), listed w)
    end.

(** [submission.comments.replace_more(limit=0)] and
    [submission.comments.list()] for the submission at position [index]. *)
Definition submission_comments (index : nat) (item : SubmissionFetch) : M (list string) :=
  fun w =>
    let w1 := set_requests (requests w ++ [RedditSubmission index]) w in
    match item with
    | FetchError msg => (Raised (PyException msg), w1)
    | SubmissionComments bodies => (Returned bodies, w1)
    end.

(** The [for] loop of [fetch_reddit_comments], with its [break]. *)
Fixpoint scan_submissions (coin_symbol : string) (limit : Z)
    (feed : list SubmissionFetch) (index : nat) (comments : list string)
    : M (list string) :=
  match feed with
  | [] => ret comments
  | item :: rest =>
      let! bodies := submission_comments index item in
      let comments' := comments ++ List.filter (mentions coin_symbol) bodies in
      if (limit <=? Z.of_nat (length comments'))%Z then ret comments'
      else scan_submissions coin_symbol limit rest (S index) comments'
  end.

Definition fetch_reddit_comments_body (coin_symbol : string) (limit : Z) : M (list string) :=
  try_except
    (let! feed := reddit_hot 10 in
     let! comments := scan_submissions coin_symbol limit feed 0 [] in
     ret (slice_to comments limit))
    (fun e =>
     exec emit (st_error ("Reddit error: " +:+ e)) in
     ret []).

Definition fetch_reddit_comments (coin_symbol : string) (limit : Z) : M (list string) :=
  retry_policy (fetch_reddit_comments_body coin_symbol limit).

(** ** Analysis functions *)

Definition Qsum (l : list Q) : Q := fold_right Qplus 0 l.

(** [Series.mean()] of a non-empty column. *)
Definition mean (l : list Q) : Q := Qsum l / inject_Z (Z.of_nat (length l)).

(** [lambda x: "Positive" if x > 0 else ("Negative" if x < 0 else "Neutral")] *)
Definition sentiment_label (x : Q) : Sentiment :=
  if Qltb 0 x then Positive else if Qltb x 0 then Negative else Neutral.

Inductive Advisory : Type :=
| StrongPositive | MildPositive | StrongNegative | MildNegative | NeutralAdvice.

(** The branches of [provide_investment_advice], in the order of the source. *)
Definition advisory (score : Q) : Advisory :=
  if Qltb (1#10) score then StrongPositive
  else if Qltb 0 score then MildPositive
  else if Qltb score (- (1#10)) then StrongNegative
  else if Qltb score 0 then MildNegative
  else NeutralAdvice.

Definition advisory_message (a : Advisory) : UiEvent :=
  match a with
  | StrongPositive =>
      st_success "Strong positive sentiment! Potentially good buying opportunity."
  | MildPositive =>
      st_info "Moderately positive sentiment. Consider buying with caution."
  | StrongNegative =>
      st_error "Strong negative sentiment! Consider waiting or selling."
  | MildNegative =>
      st_warning "Moderately negative sentiment. Be cautious with investments."
  | NeutralAdvice =>
      st_warning "Neutral sentiment. Monitor the market before deciding."
  end.

Definition provide_investment_advice (score : Q) : M unit :=
  emit (advisory_message (advisory score)).

(** The price alert check at the end of the market data card. *)
Definition price_alert (coin_symbol : string) (current_price target_price : Q)
    : option Alert :=
  if Qle_bool target_price current_price && Qltb 0 target_price
  then Some (AlertReached (upper coin_symbol) target_price)
  else if Qle_bool current_price target_price && Qltb 0 target_price
  then Some (AlertDroppedBelow (upper coin_symbol) target_price)
  else None.

Definition time_mapping (p : TimePeriod) : Z :=
  match p with
  | Day1 => 1 | Days7 => 7 | Days30 => 30
  | Days90 => 90 | Days180 => 180 | Year1 => 365
  end%Z.

Section WithScorer.

(** [TextBlob(c).sentiment.polarity]: the external scorer, a function of the
    text. *)
Variable polarity : string -> Q.

Definition sentiment_records (comments : list string) : list SentimentRecord :=
  List.map (fun c => mkRecord c (polarity c) (sentiment_label (polarity c))) comments.

Definition analyze_comments (comments : list string) : M Q :=
  match comments with
  | [] => ret 0
  | _ :: _ =>
      let analysis := sentiment_records comments in
      exec emit (st_dataframe analysis) in
      ret (mean (List.map rec_polarity analysis))
  end.

(** ** UI components *)

Definition display_coin_info (info : option CoinInfo) : M unit :=
  match info with
  | None => ret tt
  | Some i => emit (st_coin_info i)
  end.

Definition display_price_chart (dates prices : list Q) (coin_name : string)
    (time_period : TimePeriod) : M unit :=
  match dates, prices with
  | [], _ | _, [] => ret tt
  | _, _ => emit (st_plotly_chart dates prices coin_name time_period)
  end.

(** ** Main app logic *)

(** What the user did with the widgets of this run: the entry picked in the
    coin selector, the period, the number typed as price alert and whether
    the button was pressed. *)
Record Inputs : Type := mkInputs {
  coin_choice : nat;
  time_choice : TimePeriod;
  price_alert_input : Q;
  analyze_btn : bool
}.

(** [st.selectbox]: the option picked, the first one by default. *)
Definition selectbox (options : list string) (choice : nat) : string :=
  match options !! choice with
  | Some x => x
  | None => hd ""%string options
  end.

(** [coin_info['name']] *)
Definition coin_info_name (coin_info : option CoinInfo) : M string :=
  match coin_info with
  | Some i => ret (info_name i)
  | None => raise (PyException "TypeError: 'NoneType' object is not subscriptable")
  end.

Definition sentiment_card (coin_symbol : string) : M unit :=
  exec emit (st_header "Sentiment Analysis") in
  let! comments := fetch_reddit_comments coin_symbol 50 in
  match comments with
  | _ :: _ =>
      let! score := analyze_comments comments in
      provide_investment_advice score
  | [] =>
      emit (st_warning ("No recent Reddit comments found mentioning "
                        +:+ upper coin_symbol))
  end.

Definition market_card (selected_coin coin_symbol : string)
    (coin_info : option CoinInfo) (time_period : TimePeriod) (target_price : Q)
    : M unit :=
  exec emit (st_header "Market Data") in
  let! series := fetch_market_data selected_coin (time_mapping time_period) in
  let dates := series.1 in
  let prices := series.2 in
  match dates, prices with
  | _ :: _, _ :: _ =>
      let! name := coin_info_name coin_info in
      exec display_price_chart dates prices name time_period in
      let current_price := List.last prices 0 in
      match price_alert coin_symbol current_price target_price with
      | Some a => emit (st_alert a)
      | None => ret tt
      end
  | _, _ => ret tt
  end.

(** The cards of the right column, shown once the analysis was asked for. *)
Definition analysis_cards (selected_coin coin_symbol : string)
    (time_period : TimePeriod) (target_price : Q) : M unit :=
  exec emit (st_header "Coin Overview") in
  let! coin_info := fetch_coin_info selected_coin in
  exec display_coin_info coin_info in
  exec sentiment_card coin_symbol in
  market_card selected_coin coin_symbol coin_info time_period target_price.

Definition main (inp : Inputs) : M unit :=
  exec emit (st_header "Coin Selector") in
  let! coins := fetch_all_coins in
  exec (if decide (coins = ∅)
        then exec emit (st_error "Failed to load cryptocurrency list") in
             raise StopException
        else ret tt) in
  let options := (map_to_list coins).*1 in
  let selected_coin := selectbox options (coin_choice inp) in
  let time_period := time_choice inp in
  let target_price := price_alert_input inp in
  exec emit (st_widgets options) in
  exec (if analyze_btn inp
        then fun w => (Returned tt, set_analyze_clicked true w)
        else ret tt) in
  exec (fun w =>
    (if analyze_clicked w
     then
       match coins !! selected_coin with
       | None => raise (PyException "KeyError")
       | Some coin_symbol =>
           analysis_cards selected_coin coin_symbol time_period target_price
       end
     else ret tt) w) in
  emit st_footer.

End WithScorer.

(** ** Least and greatest element of a list of scores *)

Definition Qminimum (l : list Q) : Q :=
  match l with
  | [] => 0
  | x :: rest => fold_right Qmin x rest
  end.

Definition Qmaximum (l : list Q) : Q :=
  match l with
  | [] => 0
  | x :: rest => fold_right Qmax x rest
  end.

(** A scorer that gives every text the same polarity. *)
Definition const_scorer (q : Q) : string -> Q := fun _ => q.

(** ** The cached operations, uniformly *)

(** A call of one of the three cached fetch functions with its arguments. *)
Inductive Call : Type :=
| CallAllCoins
| CallCoinInfo (coin_id : string)
| CallMarketData (coin_id : string) (days : Z).

Inductive Value : Type :=
| VCoins (coins : gmap string string)
| VInfo (info : option CoinInfo)
| VSeries (series : list Q * list Q).

Definition fmap_result {A B} (f : A -> B) (m : M A) : M B :=
  fun w => match m w with
           | (Returned v, w') => (Returned (f v), w')
           | (Raised e, w') => (Raised e, w')
           end.

Definition call (c : Call) : M Value :=
  match c with
  | CallAllCoins => fmap_result VCoins fetch_all_coins
  | CallCoinInfo coin_id => fmap_result VInfo (fetch_coin_info coin_id)
  | CallMarketData coin_id days => fmap_result VSeries (fetch_market_data coin_id days)
  end.

(** The request the underlying operation of a call issues. *)
Definition request_of (c : Call) : Request :=
  match c with
  | CallAllCoins => GetCoinsList
  | CallCoinInfo coin_id => GetCoin coin_id
  | CallMarketData coin_id days => GetMarketChart coin_id days
  end.

(** What a call returns when its underlying operation fails. *)
Definition degraded (c : Call) : Value :=
  match c with
  | CallAllCoins => VCoins ∅
  | CallCoinInfo _ => VInfo None
  | CallMarketData _ _ => VSeries ([], [])
  end.

Definition ttl_of (c : Call) : Q :=
  match c with
  | CallAllCoins => 3600
  | CallCoinInfo _ => 600
  | CallMarketData _ _ => 300
  end.

(** The entry stored for the arguments of a call, if any. *)
Definition cached_entry (c : Call) (w : World) : option (Value * Q) :=
  match c with
  | CallAllCoins =>
      match cache_all_coins w !! tt with
      | Some (v, t) => Some (VCoins v, t) | None => None end
  | CallCoinInfo coin_id =>
      match cache_coin_info w !! coin_id with
      | Some (v, t) => Some (VInfo v, t) | None => None end
  | CallMarketData coin_id days =>
      match cache_market_data w !! (coin_id, days) with
      | Some (v, t) => Some (VSeries v, t) | None => None end
  end.

(** An entry is live while it is younger than the time-to-live. *)
Definition live (c : Call) (w : World) : bool :=
  match cached_entry c w with
  | Some (_, stored) => Qltb (clock w - stored) (ttl_of c)
  | None => false
  end.

Definition bad_status (status : Z) : bool :=
  ((400 <=? status) && (status <? 600))%Z.

(** The value the underlying operation of a call gets out of a reply, when it
    gets one: the status is no error status and the body is of the kind the
    call reads. *)
Definition reply_value (c : Call) (r : option Reply) : option Value :=
  match r with
  | Some (HttpReply status body) =>
      if bad_status status then None
      else match c, body with
           | CallAllCoins, CoinsBody coins => Some (VCoins (coin_dict coins))
           | CallCoinInfo _, InfoBody info => Some (VInfo (Some info))
           | CallMarketData _ _, ChartBody data =>
               Some (VSeries (List.map (fun dp : Q * Q => dp.1 / 1000) data,
                              List.map (fun dp : Q * Q => dp.2) data))
           | _, _ => None
           end
  | _ => None
  end.

(** The underlying operation of a call fails on the reply the service is
    about to give. *)
Definition underlying_fails (c : Call) (w : World) : bool :=
  match reply_value c (head (net w)) with
  | Some _ => false
  | None => true
  end.

(** The text of the exception the underlying operation of a call raises on a
    reply it fails on. *)
Definition failure_text (c : Call) (r : option Reply) : string :=
  match r with
  | None => "ReadTimeout"
  | Some (ConnectionError msg) => msg
  | Some (HttpReply status _) =>
      if bad_status status then "HTTPError"
      else match c with
           | CallAllCoins => "TypeError"
           | CallCoinInfo _ => "JSONDecodeError"
           | CallMarketData _ _ => "AttributeError"
           end
  end.

(** The world as the rate limiter leaves it when it lets a call through. *)
Definition rate_gate (max_per_second : Q) (w : World) : World :=
  let wait := 1 / max_per_second - (clock w - last_time_called w) in
  let w1 := if Qltb 0 wait then (sleep wait w).2 else w in
  set_last_time_called (clock w1) w1.

(** The world in which the underlying operation of a call starts. *)
Definition before_request (c : Call) (w : World) : World :=
  match c with
  | CallAllCoins => rate_gate 1 w
  | _ => w
  end.

(** The error message a call shows for an exception with the given text. *)
Definition error_message (c : Call) (text : string) : string :=
  match c with
  | CallAllCoins => "Failed to fetch coins: " +:+ text
  | CallCoinInfo coin_id => "Failed to fetch info for " +:+ coin_id +:+ ": " +:+ text
  | CallMarketData _ _ => "Failed to fetch market data: " +:+ text
  end.

(** The world after the underlying operation of a call failed: the request
    was issued, the reply consumed and the error shown. *)
Definition after_failure (c : Call) (w : World) : World :=
  set_ui (ui w ++ [st_error (error_message c (failure_text c (head (net w))))])
         (requested (request_of c) w).

(** Storing the result of a call in its cache, with the time of storing. *)
Definition store (c : Call) (v : Value) (w : World) : World :=
  match c, v with
  | CallAllCoins, VCoins x =>
      set_cache_all_coins (<[tt := (x, clock w)]> (cache_all_coins w)) w
  | CallCoinInfo coin_id, VInfo x =>
      set_cache_coin_info (<[coin_id := (x, clock w)]> (cache_coin_info w)) w
  | CallMarketData coin_id days, VSeries x =>
      set_cache_market_data
        (<[(coin_id, days) := (x, clock w)]> (cache_market_data w)) w
  | _, _ => w
  end.

(** The next call with the same arguments invokes the underlying operation
    again: it issues the request of the call. *)
Definition invokes_underlying (c : Call) (w : World) : Prop :=
  requests (call c w).2 = requests w ++ [request_of c].

(** The world of a process that has just started: nothing slept, requested,
    shown, cached or clicked, and the rate limiter at its initial [0.0]. *)
Definition initial_world (now : Q) (replies : list Reply)
    (feeds : list (list SubmissionFetch)) : World :=
  mkWorld now [] replies feeds [] [] 0 ∅ ∅ ∅ false.

(** The reading of "a failure is not cached": after a call whose underlying
    operation failed, the next call with the same arguments invokes the
    underlying operation again. *)
Definition failure_not_cached (c : Call) (w : World) : Prop :=
  live c w = false ->
  underlying_fails c w = true ->
  invokes_underlying c (call c w).2.

(** A process started at some time of day, with the coin list service
    failing once, or twice, before it answers. *)
Definition coin_list_reply : Reply :=
  HttpReply 200 (CoinsBody [("bitcoin", "btc"); ("ethereum", "eth")]%string).

Definition world_failing_once : World :=
  initial_world 1700000000 [ConnectionError "Connection aborted"; coin_list_reply] [].

Definition world_failing_twice : World :=
  initial_world 1700000000
    [ConnectionError "Connection aborted"; ConnectionError "Connection aborted";
     coin_list_reply]
    [[FetchError "received 503 HTTP response"];
     [FetchError "received 503 HTTP response"];
     [SubmissionComments ["BTC to the moon"; "eth is better"]%string]].

(** The hot listing a call of [fetch_reddit_comments] iterates over. *)
Definition hot_listing (w : World) : list SubmissionFetch :=
  match reddit_net w with
  | [] => [FetchError "RequestException"]
  | feed :: _ => firstn 10 feed
  end.

(** The comment bodies of a run of submissions that mention the symbol, in
    the order of the listing. *)
Definition matches (coin_symbol : string) (good : list (list string)) : list string :=
  List.filter (mentions coin_symbol) (concat good).

(** A listing whose first submission already holds two comments on bitcoin;
    the submission after it cannot be fetched. *)
Definition world_reddit : World :=
  initial_world 1700000000 []
    [[SubmissionComments ["BTC up"; "eth only"; "btc down"]%string;
      FetchError "received 503 HTTP response";
      SubmissionComments ["more btc"]%string]].

(** The reading of "a separate no-data flag": what the aggregator hands back
    tells the empty input from every non-empty one. *)
Definition reports_no_data (polarity : string -> Q) : Prop :=
  exists flag : Result Q -> bool,
    (forall w, flag (analyze_comments polarity [] w).1 = true) /\
    (forall comments w, comments <> [] ->
       flag (analyze_comments polarity comments w).1 = false).

(** Every stored price series has as many dates as prices. *)
Definition series_cache_ok (w : World) : Prop :=
  map_Forall (fun _ (entry : (list Q * list Q) * Q) =>
                length entry.1.1 = length entry.1.2)
             (cache_market_data w).

(** A process in which the price service answers with two daily points. *)
Definition world_chart : World :=
  initial_world 1700000000
    [HttpReply 200 (ChartBody [(1699900000000, 36500); (1699986400000, 37100)])]
    [].

(** How the world moves on while the program runs: output is only added to,
    and the stored price series stay well formed. *)
Definition evolves (w w' : World) : Prop :=
  (exists events, ui w' = ui w ++ events) /\
  (series_cache_ok w -> series_cache_ok w').

(** A computation is steady when every run of it leaves the world evolved. *)
Definition steady {A} (m : M A) : Prop := forall w, evolves w (m w).2.

(** A process in which every service answers: one coin in the list, its
    metadata, two submissions with comments, two daily price points. *)
Definition bitcoin_info : CoinInfo :=
  mkCoinInfo "Bitcoin" "btc" 37100 (3#2) 725000000000
             "Bitcoin is a cryptocurrency." "http://www.bitcoin.org".

Definition world_answering : World :=
  initial_world 1700000000
    [HttpReply 200 (CoinsBody [("bitcoin", "btc")]%string);
     HttpReply 200 (InfoBody bitcoin_info);
     HttpReply 200 (ChartBody [(1699900000000, 36500); (1699986400000, 37100)])]
    [[SubmissionComments ["BTC is great"; "eth only"]%string;
      SubmissionComments ["sell btc"]%string]].

(** A scorer that knows two words. *)
Definition two_word_scorer (text : string) : Q :=
  if contains "great" text then 4#5
  else if contains "sell" text then - (1#5)
  else 0.

(** * Further definitions, for the properties beyond the specification *)

(** The value is of the kind the call returns. *)
Definition well_shaped (c : Call) (v : Value) : Prop :=
  match c, v with
  | CallAllCoins, VCoins _ => True
  | CallCoinInfo _, VInfo _ => True
  | CallMarketData _ _, VSeries _ => True
  | _, _ => False
  end.

(** Time passing between two runs of the script. *)
Definition later (dt : Q) (w : World) : World := set_clock (clock w + dt) w.

(** The coin list service failed once; more than an hour after the failed
    call the stored empty mapping has expired and the service answers. *)
Definition world_after_expiry : World :=
  later 3601 (call CallAllCoins world_failing_once).2.

(** The symbol of the last entry of the list with the given id. *)
Fixpoint last_symbol (coins : list (string * string)) (coin_id : string)
    : option string :=
  match coins with
  | [] => None
  | coin :: rest =>
      match last_symbol rest coin_id with
      | Some symbol => Some symbol
      | None => if String.eqb coin.1 coin_id then Some coin.2 else None
      end
  end.

(** A computation is calm when it neither waits nor touches the session
    state. *)
Definition calm {A} (m : M A) : Prop :=
  forall w,
    slept (m w).2 = slept w /\
    clock (m w).2 = clock w /\
    last_time_called (m w).2 = last_time_called w /\
    analyze_clicked (m w).2 = analyze_clicked w.

(** The world in which [main] fetches the coin list. *)
Definition at_coin_selector (w : World) : World :=
  set_ui (ui w ++ [st_header "Coin Selector"]) w.

(** The world in which the market data card fetches the price series. *)
Definition at_market_data (w : World) : World :=
  set_ui (ui w ++ [st_header "Market Data"]) w.

(** What the market data card shows for a price series once it has the coin
    info: the chart and, for a positive target, the alert on the last
    price. *)
Definition chart_and_alert (coin_symbol : string) (dates prices : list Q)
    (info : CoinInfo) (period : TimePeriod) (target : Q) : list UiEvent :=
  st_plotly_chart dates prices (info_name info) period ::
  (if Qltb 0 target
   then if Qle_bool target (List.last prices 0)
        then [st_alert (AlertReached (upper coin_symbol) target)]
        else [st_alert (AlertDroppedBelow (upper coin_symbol) target)]
   else []).

Section MainAfterCoins.

Variable polarity : string -> Q.

(** What [main] does once it has the coin mapping. *)
Definition main_after_coins (inp : Inputs) (coins : gmap string string) : M unit :=
  exec (if decide (coins = ∅)
        then exec emit (st_error "Failed to load cryptocurrency list") in
             raise StopException
        else ret tt) in
  let options := (map_to_list coins).*1 in
  let selected_coin := selectbox options (coin_choice inp) in
  let time_period := time_choice inp in
  let target_price := price_alert_input inp in
  exec emit (st_widgets options) in
  exec (if analyze_btn inp
        then fun w => (Returned tt, set_analyze_clicked true w)
        else ret tt) in
  exec (fun w =>
    (if analyze_clicked w
     then
       match coins !! selected_coin with
       | None => raise (PyException "KeyError")
       | Some coin_symbol =>
           analysis_cards polarity selected_coin coin_symbol time_period target_price
       end
     else ret tt) w) in
  emit st_footer.

End MainAfterCoins.

(** The wait of the rate limiter of [fetch_all_coins] in a world. *)
Definition coin_list_wait (w : World) : Q :=
  1 / 1 - (clock w - last_time_called w).
(** * Properties *)

(** ** Comparisons *)

Lemma Qltb_lt (x y : Q) : Qltb x y = true <-> x < y.
Proof.
  unfold Qltb. rewrite negb_true_iff, <- not_true_iff_false, Qle_bool_iff.
  split; [apply Qnot_le_lt | apply Qlt_not_le].
Qed.

Lemma Qltb_ge (x y : Q) : Qltb x y = false <-> y <= x.
Proof.
  unfold Qltb. rewrite negb_false_iff. apply Qle_bool_iff.
Qed.

Lemma Qle_bool_gt (x y : Q) : Qle_bool x y = false <-> y < x.
Proof.
  rewrite <- not_true_iff_false, Qle_bool_iff.
  split; [apply Qnot_le_lt | apply Qlt_not_le].
Qed.

Ltac qcases :=
  repeat match goal with
  | |- context [Qltb ?a ?b] =>
      let E := fresh "E" in
      destruct (Qltb a b) eqn:E;
      [apply Qltb_lt in E | apply Qltb_ge in E]
  | |- context [Qle_bool ?a ?b] =>
      let E := fresh "E" in
      destruct (Qle_bool a b) eqn:E;
      [apply Qle_bool_iff in E | apply Qle_bool_gt in E]
  end.

(** ** Advisory mapper *)


(** ** Price alert evaluator *)


(** ** Sentiment aggregator *)

Lemma fold_Qmin_le (x : Q) (l : list Q) :
  fold_right Qmin x l <= x /\ forall y, In y l -> fold_right Qmin x l <= y.
Proof.
  induction l as [|a l [IHx IHl]]; simpl.
  - split; [apply Qle_refl | intros y []].
  - split.
    + eapply Qle_trans; [apply Q.le_min_r | exact IHx].
    + intros y [<- | Hy]; [apply Q.le_min_l |].
      eapply Qle_trans; [apply Q.le_min_r | auto].
Qed.

Lemma fold_Qmax_ge (x : Q) (l : list Q) :
  x <= fold_right Qmax x l /\ forall y, In y l -> y <= fold_right Qmax x l.
Proof.
  induction l as [|a l [IHx IHl]]; simpl.
  - split; [apply Qle_refl | intros y []].
  - split.
    + eapply Qle_trans; [exact IHx | apply Q.le_max_r].
    + intros y [<- | Hy]; [apply Q.le_max_l |].
      eapply Qle_trans; [| apply Q.le_max_r]. auto.
Qed.

Lemma Qminimum_le (l : list Q) (y : Q) : In y l -> Qminimum l <= y.
Proof.
  destruct l as [|x l]; [intros [] |]. simpl.
  destruct (fold_Qmin_le x l) as [Hx Hl]. intros [<- | Hy]; auto.
Qed.

Lemma Qmaximum_ge (l : list Q) (y : Q) : In y l -> y <= Qmaximum l.
Proof.
  destruct l as [|x l]; [intros [] |]. simpl.
  destruct (fold_Qmax_ge x l) as [Hx Hl]. intros [<- | Hy]; auto.
Qed.

Lemma length_cons_Q {A} (a : A) (l : list A) :
  inject_Z (Z.of_nat (length (a :: l))) == inject_Z (Z.of_nat (length l)) + 1.
Proof.
  cbn [length]. rewrite Nat2Z.inj_succ. unfold Z.succ.
  rewrite inject_Z_plus. reflexivity.
Qed.

Lemma Qsum_bounds (lo hi : Q) (l : list Q) :
  (forall x, In x l -> lo <= x /\ x <= hi) ->
  lo * inject_Z (Z.of_nat (length l)) <= Qsum l /\
  Qsum l <= hi * inject_Z (Z.of_nat (length l)).
Proof.
  induction l as [|a l IH]; intros Hall.
  - change (inject_Z (Z.of_nat (length (@nil Q)))) with 0.
    change (Qsum []) with 0. split; lra.
  - destruct IH as [IHlo IHhi]; [intros x Hx; apply Hall; right; exact Hx |].
    destruct (Hall a (or_introl eq_refl)) as [Ha1 Ha2].
    rewrite length_cons_Q. cbn [Qsum fold_right].
    fold (Qsum l). split; lra.
Qed.

Lemma length_pos_Q {A} (l : list A) :
  l <> [] -> 0 < inject_Z (Z.of_nat (length l)).
Proof.
  intros Hne. destruct l as [|a l]; [congruence |].
  rewrite length_cons_Q.
  assert (0 <= inject_Z (Z.of_nat (length l))).
  { change 0 with (inject_Z 0). rewrite <- Zle_Qle. lia. }
  lra.
Qed.

Lemma mean_bounds (lo hi : Q) (l : list Q) :
  l <> [] ->
  (forall x, In x l -> lo <= x /\ x <= hi) ->
  lo <= mean l /\ mean l <= hi.
Proof.
  intros Hne Hall. destruct (Qsum_bounds lo hi l Hall) as [Hlo Hhi].
  pose proof (length_pos_Q l Hne) as Hpos. unfold mean. split.
  - apply Qle_shift_div_l; assumption.
  - apply Qle_shift_div_r; assumption.
Qed.

Lemma mean_times_length (l : list Q) :
  l <> [] -> mean l * inject_Z (Z.of_nat (length l)) == Qsum l.
Proof.
  intros Hne. pose proof (length_pos_Q l Hne). unfold mean. field. lra.
Qed.

Lemma sentiment_records_polarity (polarity : string -> Q) (comments : list string) :
  List.map rec_polarity (sentiment_records polarity comments)
  = List.map polarity comments.
Proof.
  unfold sentiment_records. rewrite List.map_map. reflexivity.
Qed.

Lemma analyze_comments_nonempty (polarity : string -> Q) (comments : list string)
    (w : World) :
  comments <> [] ->
  analyze_comments polarity comments w
  = (Returned (mean (List.map polarity comments)),
     set_ui (ui w ++ [st_dataframe (sentiment_records polarity comments)]) w).
Proof.
  intros Hne. destruct comments as [|c cs]; [congruence |].
  unfold analyze_comments. rewrite sentiment_records_polarity. reflexivity.
Qed.

Lemma sentiment_label_spec (x : Q) :
  (0 < x <-> sentiment_label x = Positive) /\
  (x < 0 <-> sentiment_label x = Negative) /\
  (x == 0 <-> sentiment_label x = Neutral).
Proof.
  unfold sentiment_label.
  repeat match goal with |- _ /\ _ => split end;
    qcases; split; intros H; try discriminate; try reflexivity; lra.
Qed.





(** ** The decorators *)

Lemma wait_exponential_floor (attempt_number : nat) :
  4 <= wait_exponential 1 4 10 attempt_number.
Proof.
  unfold wait_exponential. eapply Qle_trans; [| apply Q.le_max_l].
  apply Q.le_max_r.
Qed.

Lemma wait_exponential_first_two :
  wait_exponential 1 4 10 1 = 4 /\ wait_exponential 1 4 10 2 = 4.
Proof. split; reflexivity. Qed.

(** A function that returns is called once by the retry loop. *)
Lemma retry_from_returned {A} (wait : nat -> Q) (remaining n : nat)
    (func : M A) (w w' : World) (v : A) :
  func w = (Returned v, w') ->
  retry_from wait remaining n func w = (Returned v, w').
Proof. intros H. destruct remaining; simpl; rewrite H; reflexivity. Qed.

Lemma retry_policy_returned {A} (func : M A) (w w' : World) (v : A) :
  func w = (Returned v, w') -> retry_policy func w = (Returned v, w').
Proof. apply retry_from_returned. Qed.

(** The retry loop itself does what its configuration says: a function that
    raises twice and then returns is called three times, with 4 seconds slept
    after each failure. *)
Lemma retry_policy_third_attempt {A} (func : M A) (w0 w1 w2 w3 : World)
    (m1 m2 : string) (v : A) :
  func w0 = (Raised (PyException m1), w1) ->
  func (sleep 4 w1).2 = (Raised (PyException m2), w2) ->
  func (sleep 4 w2).2 = (Returned v, w3) ->
  retry_policy func w0 = (Returned v, w3).
Proof.
  intros H1 H2 H3. unfold retry_policy, retry. cbn [Nat.sub retry_from].
  rewrite H1. unfold bind at 1.
  destruct wait_exponential_first_two as [-> E2].
  unfold sleep in *. cbn [snd] in *. rewrite H2.
  unfold bind at 1. rewrite E2, H3. reflexivity.
Qed.

(** A function that raises three times is not called a fourth time: the
    failure comes out of the wrapper. *)
Lemma retry_policy_exhausted {A} (func : M A) (w0 w1 w2 w3 : World)
    (m1 m2 m3 : string) :
  func w0 = (Raised (PyException m1), w1) ->
  func (sleep 4 w1).2 = (Raised (PyException m2), w2) ->
  func (sleep 4 w2).2 = (Raised (PyException m3), w3) ->
  retry_policy func w0 = (Raised (PyException ("RetryError: " +:+ m3)), w3).
Proof.
  intros H1 H2 H3. unfold retry_policy, retry. cbn [Nat.sub retry_from].
  rewrite H1. unfold bind at 1.
  destruct wait_exponential_first_two as [-> E2].
  unfold sleep in *. cbn [snd] in *. rewrite H2.
  unfold bind at 1. rewrite E2, H3. reflexivity.
Qed.

Section CacheData.

Context {K V : Type} `{Countable K}.
Variable get : World -> gmap K (V * Q).
Variable set : gmap K (V * Q) -> World -> World.
Variable ttl : Q.
Variable func : K -> M V.

Lemma cache_data_hit (k : K) (w : World) (v : V) (stored : Q) :
  get w !! k = Some (v, stored) ->
  clock w - stored < ttl ->
  cache_data get set ttl func k w = (Returned v, w).
Proof.
  intros Hget Hlive. unfold cache_data. rewrite Hget.
  apply Qltb_lt in Hlive. rewrite Hlive. reflexivity.
Qed.

Lemma cache_data_expired (k : K) (w w' : World) (v v' : V) (stored : Q) :
  get w !! k = Some (v, stored) ->
  ttl <= clock w - stored ->
  func k w = (Returned v', w') ->
  cache_data get set ttl func k w
  = (Returned v', set (<[k := (v', clock w')]> (get w')) w').
Proof.
  intros Hget Hold Hrun. unfold cache_data. rewrite Hget.
  apply Qltb_ge in Hold. rewrite Hold, Hrun. reflexivity.
Qed.

Lemma cache_data_absent (k : K) (w w' : World) (v' : V) :
  get w !! k = None ->
  func k w = (Returned v', w') ->
  cache_data get set ttl func k w
  = (Returned v', set (<[k := (v', clock w')]> (get w')) w').
Proof.
  intros Hget Hrun. unfold cache_data. rewrite Hget, Hrun. reflexivity.
Qed.

(** A call that raises leaves the store as the function left it. *)
Lemma cache_data_raised (k : K) (w w' : World) (e : Exn) :
  get w !! k = None ->
  func k w = (Raised e, w') ->
  cache_data get set ttl func k w = (Raised e, w').
Proof.
  intros Hget Hrun. unfold cache_data. rewrite Hget, Hrun. reflexivity.
Qed.

End CacheData.

(** ** The fetch functions *)

Ltac run_body w :=
  let r := fresh "r" in
  let status := fresh "status" in
  let body := fresh "body" in
  let E := fresh "E" in
  unfold try_except, bind, requests_get, raise_for_status,
    reply_value, failure_text, emit, ret, raise;
  destruct (net w) as [|[r|status body] ?]; cbn; try reflexivity;
  unfold bad_status;
  destruct ((400 <=? status)%Z && (status <? 600)%Z) eqn:E; cbn;
  try reflexivity; destruct body; cbn; try reflexivity.

(** Each body issues one request and returns: the value of the reply, or,
    with an error message shown, the degraded value. *)
Lemma fetch_all_coins_body_run (w : World) :
  fetch_all_coins_body w =
  match reply_value CallAllCoins (head (net w)) with
  | Some (VCoins coins) => (Returned coins, requested GetCoinsList w)
  | _ =>
      (Returned ∅,
       set_ui (ui w ++ [st_error ("Failed to fetch coins: "
                                  +:+ failure_text CallAllCoins (head (net w)))])
              (requested GetCoinsList w))
  end.
Proof. unfold fetch_all_coins_body, json_coins. run_body w. Qed.

Lemma fetch_coin_info_body_run (coin_id : string) (w : World) :
  fetch_coin_info_body coin_id w =
  match reply_value (CallCoinInfo coin_id) (head (net w)) with
  | Some (VInfo info) => (Returned info, requested (GetCoin coin_id) w)
  | _ =>
      (Returned None,
       set_ui (ui w ++ [st_error ("Failed to fetch info for " +:+ coin_id +:+ ": "
                                  +:+ failure_text (CallCoinInfo coin_id)
                                        (head (net w)))])
              (requested (GetCoin coin_id) w))
  end.
Proof. unfold fetch_coin_info_body, json_info. run_body w. Qed.

Lemma fetch_market_data_body_run (coin_id : string) (days : Z) (w : World) :
  fetch_market_data_body coin_id days w =
  match reply_value (CallMarketData coin_id days) (head (net w)) with
  | Some (VSeries series) =>
      (Returned series, requested (GetMarketChart coin_id days) w)
  | _ =>
      (Returned ([], []),
       set_ui (ui w ++ [st_error ("Failed to fetch market data: "
                                  +:+ failure_text (CallMarketData coin_id days)
                                        (head (net w)))])
              (requested (GetMarketChart coin_id days) w))
  end.
Proof.
  unfold fetch_market_data_body, json_prices. run_body w.
  destruct prices; reflexivity.
Qed.

Lemma retry_policy_total {A} (func : M A) :
  (forall w, exists v w', func w = (Returned v, w')) ->
  forall w, retry_policy func w = func w.
Proof.
  intros Htotal w. destruct (Htotal w) as (v & w' & E).
  rewrite E. apply retry_policy_returned, E.
Qed.

(** None of the bodies raises: every exception is caught inside. *)
Lemma fetch_all_coins_body_returns (w : World) :
  exists v w', fetch_all_coins_body w = (Returned v, w').
Proof.
  rewrite fetch_all_coins_body_run.
  destruct (reply_value _ _) as [[]|]; eauto.
Qed.

Lemma fetch_coin_info_body_returns (coin_id : string) (w : World) :
  exists v w', fetch_coin_info_body coin_id w = (Returned v, w').
Proof.
  rewrite fetch_coin_info_body_run.
  destruct (reply_value _ _) as [[]|]; eauto.
Qed.

Lemma fetch_market_data_body_returns (coin_id : string) (days : Z) (w : World) :
  exists v w', fetch_market_data_body coin_id days w = (Returned v, w').
Proof.
  rewrite fetch_market_data_body_run.
  destruct (reply_value _ _) as [[]|]; eauto.
Qed.

Lemma rate_limited_run {A} (max_per_second : Q) (func : M A) (w : World) :
  rate_limited max_per_second func w = func (rate_gate max_per_second w).
Proof.
  unfold rate_limited, rate_gate, bind, time_time.
  destruct (Qltb 0 _); reflexivity.
Qed.

Lemma rate_gate_frame (r : Q) (w : World) :
  net (rate_gate r w) = net w /\
  requests (rate_gate r w) = requests w /\
  ui (rate_gate r w) = ui w /\
  cache_all_coins (rate_gate r w) = cache_all_coins w /\
  cache_coin_info (rate_gate r w) = cache_coin_info w /\
  cache_market_data (rate_gate r w) = cache_market_data w.
Proof. unfold rate_gate. destruct (Qltb 0 _); repeat split. Qed.

(** A call without a live entry runs its underlying operation once, whatever
    the reply, and stores what comes out of it: the value of the reply or the
    degraded value. *)
Lemma call_run_miss (c : Call) (w : World) :
  live c w = false ->
  call c w =
  match reply_value c (head (net w)) with
  | Some v => (Returned v, store c v (requested (request_of c) (before_request c w)))
  | None =>
      (Returned (degraded c),
       store c (degraded c) (after_failure c (before_request c w)))
  end.
Proof.
  unfold live, cached_entry. intros Hlive.
  destruct c as [|coin_id|coin_id days]; unfold call, fmap_result.
  - unfold fetch_all_coins, cache_data.
    assert (Hrun : rate_limited 1 (retry_policy fetch_all_coins_body) w =
                   fetch_all_coins_body (rate_gate 1 w)).
    { rewrite rate_limited_run. apply retry_policy_total.
      apply fetch_all_coins_body_returns. }
    rewrite Hrun, fetch_all_coins_body_run.
    destruct (rate_gate_frame 1 w) as (Hnet & _). rewrite <- Hnet.
    unfold before_request. generalize (rate_gate 1 w). intros w0.
    destruct (cache_all_coins w !! tt) as [[v t]|];
      [cbn in Hlive; rewrite Hlive |];
      unfold reply_value, after_failure;
      destruct (head (net w0)) as [[msg|status body]|];
      try reflexivity; destruct body, (bad_status status); reflexivity.
  - unfold fetch_coin_info, cache_data.
    assert (Hrun : retry_policy (fetch_coin_info_body coin_id) w =
                   fetch_coin_info_body coin_id w).
    { apply retry_policy_total. intros w0. apply fetch_coin_info_body_returns. }
    rewrite Hrun, fetch_coin_info_body_run.
    destruct (cache_coin_info w !! coin_id) as [[v t]|];
      [cbn in Hlive; rewrite Hlive |];
      unfold reply_value, after_failure, before_request;
      destruct (head (net w)) as [[msg|status body]|];
      try reflexivity; destruct body, (bad_status status); reflexivity.
  - unfold fetch_market_data, cache_data. cbn [fst snd].
    assert (Hrun : retry_policy (fetch_market_data_body coin_id days) w =
                   fetch_market_data_body coin_id days w).
    { apply retry_policy_total. intros w0. apply fetch_market_data_body_returns. }
    rewrite Hrun, fetch_market_data_body_run.
    destruct (cache_market_data w !! (coin_id, days)) as [[v t]|];
      [cbn in Hlive; rewrite Hlive |];
      unfold reply_value, after_failure, before_request;
      destruct (head (net w)) as [[msg|status body]|];
      try reflexivity; destruct body, (bad_status status); reflexivity.
Qed.

(** A call with a live entry returns the stored value and touches nothing. *)
Lemma call_run_hit (c : Call) (w : World) (v : Value) (stored : Q) :
  cached_entry c w = Some (v, stored) ->
  clock w - stored < ttl_of c ->
  call c w = (Returned v, w).
Proof.
  unfold cached_entry. intros Hentry Hlive.
  destruct c as [|coin_id|coin_id days]; unfold call, fmap_result.
  - destruct (cache_all_coins w !! tt) as [[x t]|] eqn:E; [| discriminate].
    inversion Hentry; subst. unfold fetch_all_coins.
    erewrite cache_data_hit; eauto.
  - destruct (cache_coin_info w !! coin_id) as [[x t]|] eqn:E; [| discriminate].
    inversion Hentry; subst. unfold fetch_coin_info.
    erewrite cache_data_hit; eauto.
  - destruct (cache_market_data w !! (coin_id, days)) as [[x t]|] eqn:E;
      [| discriminate].
    inversion Hentry; subst. unfold fetch_market_data.
    erewrite cache_data_hit; eauto.
Qed.

Lemma requests_before_request (c : Call) (w : World) :
  requests (before_request c w) = requests w.
Proof. destruct c; try reflexivity. apply rate_gate_frame. Qed.

Lemma requests_store (c : Call) (v : Value) (w : World) :
  requests (store c v w) = requests w.
Proof. destruct c, v; reflexivity. Qed.

Lemma clock_store (c : Call) (v : Value) (w : World) :
  clock (store c v w) = clock w.
Proof. destruct c, v; reflexivity. Qed.

Lemma cached_entry_store_degraded (c : Call) (w : World) :
  cached_entry c (store c (degraded c) w) = Some (degraded c, clock w).
Proof.
  destruct c; unfold cached_entry, store, degraded;
    cbn [cache_all_coins cache_coin_info cache_market_data
         set_cache_all_coins set_cache_coin_info set_cache_market_data];
    rewrite lookup_insert_eq; reflexivity.
Qed.

(** Whatever the reply, a call without a live entry issues its request. *)
Lemma call_miss_invokes (c : Call) (w : World) :
  live c w = false -> invokes_underlying c w.
Proof.
  intros Hlive. unfold invokes_underlying. rewrite (call_run_miss c w Hlive).
  destruct (reply_value c (head (net w))); cbn [snd];
    rewrite requests_store; unfold after_failure, requested; cbn [requests set_ui set_net set_requests];
    rewrite requests_before_request; reflexivity.
Qed.

(** C1, as the code has it: a failure of the underlying operation is turned
    into the degraded value of the operation, which is stored like any other
    result.  While the entry is younger than the time-to-live, a call with
    the same arguments returns the degraded value without invoking the
    underlying operation; once it has expired, the call invokes it again. *)
Theorem failed_fetch_is_cached (c : Call) (w w2 : World) :
  live c w = false ->
  underlying_fails c w = true ->
  cached_entry c w2 = cached_entry c (call c w).2 ->
  exists w1,
    call c w = (Returned (degraded c), w1) /\
    requests w1 = requests w ++ [request_of c] /\
    (clock w2 - clock w1 < ttl_of c -> call c w2 = (Returned (degraded c), w2)) /\
    (ttl_of c <= clock w2 - clock w1 -> invokes_underlying c w2).
Proof.
  intros Hlive Hfails Hentry. unfold underlying_fails in Hfails.
  pose proof (call_miss_invokes c w Hlive) as Hreq. unfold invokes_underlying in Hreq.
  rewrite (call_run_miss c w Hlive) in Hentry, Hreq |- *.
  destruct (reply_value c (head (net w))); [discriminate |].
  cbn [snd] in Hentry, Hreq. rewrite cached_entry_store_degraded in Hentry.
  eexists. split; [reflexivity |]. split; [exact Hreq |].
  rewrite clock_store. split.
  - intros Hyoung. eapply call_run_hit; eauto.
  - intros Hold. apply call_miss_invokes. unfold live. rewrite Hentry.
    apply Qltb_ge. exact Hold.
Qed.

Lemma failed_fetch_is_cached_witness :
  let w1 := (call CallAllCoins world_failing_once).2 in
  call CallAllCoins world_failing_once = (Returned (VCoins ∅), w1) /\
  call CallAllCoins w1 = (Returned (VCoins ∅), w1).
Proof.
  destruct (failed_fetch_is_cached CallAllCoins world_failing_once
              (call CallAllCoins world_failing_once).2)
    as (w1 & Hrun & _ & Hhit & _); [reflexivity | reflexivity | reflexivity |].
  cbv zeta. rewrite Hrun in Hhit |- *. cbn [snd] in Hhit |- *.
  split; [reflexivity |]. apply Hhit.
  change (ttl_of CallAllCoins) with 3600. lra.
Defined.

(** C1, as stated, fails: the coin list service fails once and would answer
    the second request, but the call that follows the failed one is served
    the stored empty mapping and issues no request. *)
Lemma failure_not_cached_counterexample :
  ~ failure_not_cached CallAllCoins world_failing_once.
Proof.
  intros H. specialize (H eq_refl eq_refl).
  unfold invokes_underlying in H. vm_compute in H. discriminate H.
Qed.

(** ** Discussion client *)

Section Scan.

Variable coin_symbol : string.
Variable limit : Z.

(** The loop only appends to the log of requests. *)
Lemma scan_submissions_world (feed : list SubmissionFetch) :
  forall index comments w,
  exists reqs,
    (scan_submissions coin_symbol limit feed index comments w).2
    = set_requests (requests w ++ reqs) w.
Proof.
  induction feed as [|item rest IH]; intros index comments w.
  - exists []. cbn. rewrite app_nil_r. destruct w; reflexivity.
  - cbn [scan_submissions]. unfold bind, submission_comments.
    destruct item as [msg|bodies].
    + exists [RedditSubmission index]. reflexivity.
    + destruct (limit <=? _)%Z.
      * exists [RedditSubmission index]. reflexivity.
      * destruct (IH (S index) (comments ++ List.filter (mentions coin_symbol) bodies)
                     (set_requests (requests w ++ [RedditSubmission index]) w))
          as [reqs Hreqs].
        exists (RedditSubmission index :: reqs). rewrite Hreqs.
        cbn [requests set_requests]. rewrite <- (app_assoc (requests w)).
        reflexivity.
Qed.

(** The loop raises nothing but the exception of a failed fetch. *)
Lemma scan_submissions_raised (feed : list SubmissionFetch) :
  forall index comments w e w',
  scan_submissions coin_symbol limit feed index comments w = (Raised e, w') ->
  exists msg, e = PyException msg.
Proof.
  induction feed as [|item rest IH]; intros index comments w e w' Hrun.
  - discriminate.
  - cbn [scan_submissions] in Hrun. unfold bind, submission_comments in Hrun.
    destruct item as [msg|bodies].
    + inversion Hrun. eauto.
    + destruct (limit <=? _)%Z; [discriminate |]. eapply IH, Hrun.
Qed.

(** Every comment collected mentions the symbol. *)
Lemma scan_submissions_mention (feed : list SubmissionFetch) :
  forall index comments w l w',
  List.Forall (fun b => mentions coin_symbol b = true) comments ->
  scan_submissions coin_symbol limit feed index comments w = (Returned l, w') ->
  List.Forall (fun b => mentions coin_symbol b = true) l.
Proof.
  induction feed as [|item rest IH]; intros index comments w l w' Hall Hrun.
  - inversion Hrun; subst. exact Hall.
  - cbn [scan_submissions] in Hrun. unfold bind, submission_comments in Hrun.
    destruct item as [msg|bodies]; [discriminate |].
    assert (Hall' : List.Forall (fun b => mentions coin_symbol b = true)
                      (comments ++ List.filter (mentions coin_symbol) bodies)).
    { apply List.Forall_app. split; [exact Hall |].
      apply List.Forall_forall. intros b Hb.
      apply List.filter_In in Hb. tauto. }
    destruct (limit <=? _)%Z.
    + inversion Hrun; subst. exact Hall'.
    + eapply IH; [exact Hall' | exact Hrun].
Qed.

Lemma matches_cons (bodies : list string) (good : list (list string)) :
  matches coin_symbol (bodies :: good)
  = List.filter (mentions coin_symbol) bodies ++ matches coin_symbol good.
Proof. unfold matches. cbn [concat]. apply List.filter_app. Qed.

(** Once the submissions fetched so far hold [limit] matching comments the
    loop stops: it has fetched at most the submissions [good] that reach the
    limit, and nothing of what follows them. *)
Lemma scan_submissions_stops (good : list (list string)) :
  forall rest index comments w,
  good <> [] ->
  (limit <= Z.of_nat (length (comments ++ matches coin_symbol good)))%Z ->
  exists n,
    (1 <= n <= length good)%nat /\
    (limit <= Z.of_nat (length (comments ++ matches coin_symbol (firstn n good))))%Z /\
    scan_submissions coin_symbol limit
      (List.map SubmissionComments good ++ rest) index comments w
    = (Returned (comments ++ matches coin_symbol (firstn n good)),
       set_requests (requests w ++ List.map RedditSubmission (seq index n)) w).
Proof.
  induction good as [|bodies good IH]; intros rest index comments w Hne Hlim;
    [congruence |].
  cbn [List.map app scan_submissions]. unfold bind, submission_comments.
  destruct (limit <=? _)%Z eqn:E.
  - exists 1%nat. cbn [firstn length seq List.map].
    rewrite matches_cons. change (matches coin_symbol []) with (@nil string).
    rewrite app_nil_r. apply Z.leb_le in E.
    split; [lia |]. split; [exact E | reflexivity].
  - apply Z.leb_gt in E. destruct good as [|bodies' good'].
    + exfalso. rewrite matches_cons in Hlim.
      change (matches coin_symbol []) with (@nil string) in Hlim.
      rewrite app_nil_r in Hlim. lia.
    + destruct (IH rest (S index)
                  (comments ++ List.filter (mentions coin_symbol) bodies)
                  (set_requests (requests w ++ [RedditSubmission index]) w))
        as (n & Hn & Hlim' & Hrun); [discriminate | |].
      { rewrite matches_cons, app_assoc in Hlim. exact Hlim. }
      exists (S n). cbn [firstn]. rewrite matches_cons, app_assoc.
      split; [cbn [length] in *; lia |]. split; [exact Hlim' |].
      rewrite Hrun. cbn [requests set_requests seq List.map].
      rewrite <- (app_assoc (requests w)). reflexivity.
Qed.

(** A fetch that fails before the limit is reached ends the loop with its
    exception. *)
Lemma scan_submissions_fails (good : list (list string)) :
  forall msg rest index comments w,
  (Z.of_nat (length (comments ++ matches coin_symbol good)) < limit)%Z ->
  exists reqs,
    scan_submissions coin_symbol limit
      (List.map SubmissionComments good ++ FetchError msg :: rest)
      index comments w
    = (Raised (PyException msg), set_requests (requests w ++ reqs) w).
Proof.
  induction good as [|bodies good IH]; intros msg rest index comments w Hlim.
  - exists [RedditSubmission index]. reflexivity.
  - cbn [List.map app scan_submissions]. unfold bind, submission_comments.
    rewrite matches_cons, app_assoc in Hlim.
    destruct (limit <=? _)%Z eqn:E.
    + apply Z.leb_le in E. rewrite length_app in Hlim.
      rewrite !length_app in *. lia.
    + destruct (IH msg rest (S index)
                  (comments ++ List.filter (mentions coin_symbol) bodies)
                  (set_requests (requests w ++ [RedditSubmission index]) w) Hlim)
        as [reqs Hrun].
      exists (RedditSubmission index :: reqs). rewrite Hrun.
      cbn [requests set_requests]. rewrite <- (app_assoc (requests w)).
      reflexivity.
Qed.

End Scan.

Lemma reddit_hot_run (w : World) :
  reddit_hot 10 w = (Returned (hot_listing w), listed w).
Proof. unfold reddit_hot, hot_listing. destruct (reddit_net w); reflexivity. Qed.

Lemma fetch_reddit_comments_body_run (coin_symbol : string) (limit : Z) (w : World) :
  fetch_reddit_comments_body coin_symbol limit w =
  match scan_submissions coin_symbol limit (hot_listing w) 0 [] (listed w) with
  | (Returned l, w') => (Returned (slice_to l limit), w')
  | (Raised (PyException msg), w') =>
      (Returned [], set_ui (ui w' ++ [st_error ("Reddit error: " +:+ msg)]) w')
  | (Raised StopException, w') => (Raised StopException, w')
  end.
Proof.
  unfold fetch_reddit_comments_body, try_except, bind.
  rewrite reddit_hot_run.
  destruct (scan_submissions _ _ _ _ _ _) as [[l|[msg|]] w']; reflexivity.
Qed.

Lemma fetch_reddit_comments_body_returns (coin_symbol : string) (limit : Z)
    (w : World) :
  exists l w', fetch_reddit_comments_body coin_symbol limit w = (Returned l, w').
Proof.
  rewrite fetch_reddit_comments_body_run.
  destruct (scan_submissions _ _ _ _ _ _) as [[l|e] w'] eqn:E; [eauto |].
  apply scan_submissions_raised in E as [msg ->]. eauto.
Qed.

(** The retry wrapper never sees the body fail. *)
Lemma fetch_reddit_comments_run (coin_symbol : string) (limit : Z) (w : World) :
  fetch_reddit_comments coin_symbol limit w
  = fetch_reddit_comments_body coin_symbol limit w.
Proof.
  apply retry_policy_total. intros w0. apply fetch_reddit_comments_body_returns.
Qed.

Lemma length_slice_to {A} (l : list A) (k : Z) :
  (0 <= k)%Z -> (Z.of_nat (length (slice_to l k)) <= k)%Z.
Proof.
  intros Hk. unfold slice_to. destruct (0 <=? k)%Z eqn:E; [| lia].
  rewrite List.length_firstn. lia.
Qed.

Lemma Forall_slice_to {A} (P : A -> Prop) (l : list A) (k : Z) :
  List.Forall P l -> List.Forall P (slice_to l k).
Proof.
  intros Hall. unfold slice_to. destruct (0 <=? k)%Z; apply Forall_take, Hall.
Qed.

Lemma matches_app (coin_symbol : string) (good1 good2 : list (list string)) :
  matches coin_symbol (good1 ++ good2)
  = matches coin_symbol good1 ++ matches coin_symbol good2.
Proof. unfold matches. rewrite concat_app. apply List.filter_app. Qed.

(** Cutting at the limit gives the same whether or not the submissions past
    the point where the limit was reached are counted in. *)
Lemma slice_to_matches_prefix (coin_symbol : string) (good : list (list string))
    (n : nat) (limit : Z) :
  (0 <= limit)%Z ->
  (limit <= Z.of_nat (length (matches coin_symbol (firstn n good))))%Z ->
  slice_to (matches coin_symbol (firstn n good)) limit
  = slice_to (matches coin_symbol good) limit.
Proof.
  intros Hpos Hlim. unfold slice_to. destruct (0 <=? limit)%Z eqn:E; [| lia].
  rewrite <- (firstn_skipn n good) at 2. rewrite matches_app.
  rewrite List.firstn_app.
  replace (Z.to_nat limit - length (matches coin_symbol (firstn n good)))%nat
    with 0%nat by lia.
  cbn [firstn]. rewrite app_nil_r. reflexivity.
Qed.

(** C7: for a limit that is a count, [fetch_reddit_comments] returns, without
    raising, at most [limit] comment bodies, each of them containing the
    symbol whatever the case of the letters.  When the first submissions of
    the listing hold [limit] matching comments, the result is these matches
    cut at [limit] and no submission after them is fetched.  When a fetch
    fails before the limit is reached, the result is the empty sequence and
    the error is shown. *)
Theorem fetch_reddit_comments_bounded (coin_symbol : string) (limit : Z) (w : World) :
  (0 <= limit)%Z ->
  exists l w',
    fetch_reddit_comments coin_symbol limit w = (Returned l, w') /\
    (Z.of_nat (length l) <= limit)%Z /\
    List.Forall (fun body => contains (lower coin_symbol) (lower body) = true) l /\
    (forall good rest,
       good <> [] ->
       hot_listing w = List.map SubmissionComments good ++ rest ->
       (limit <= Z.of_nat (length (matches coin_symbol good)))%Z ->
       l = slice_to (matches coin_symbol good) limit /\
       exists n,
         (1 <= n <= length good)%nat /\
         requests w' = requests w ++ RedditHot :: List.map RedditSubmission (seq 0 n)) /\
    (forall good msg rest,
       hot_listing w = List.map SubmissionComments good ++ FetchError msg :: rest ->
       (Z.of_nat (length (matches coin_symbol good)) < limit)%Z ->
       l = [] /\ ui w' = ui w ++ [st_error ("Reddit error: " +:+ msg)]).
Proof.
  intros Hpos. rewrite fetch_reddit_comments_run, fetch_reddit_comments_body_run.
  destruct (scan_submissions coin_symbol limit (hot_listing w) 0 [] (listed w))
    as [[l|e] w'] eqn:E.
  - exists (slice_to l limit), w'. split; [reflexivity |].
    split; [apply length_slice_to, Hpos |]. split.
    { apply Forall_slice_to.
      eapply scan_submissions_mention; [apply List.Forall_nil | exact E]. }
    split.
    + intros good rest Hne Hhot Hlim. rewrite Hhot in E.
      destruct (scan_submissions_stops coin_symbol limit good rest 0 [] (listed w)
                  Hne Hlim) as (n & Hn & Hlim' & Hrun).
      rewrite Hrun in E. inversion E; subst. cbn [app] in *.
      split; [apply slice_to_matches_prefix; assumption |].
      exists n. split; [exact Hn |].
      cbn [requests set_requests listed set_reddit_net].
      rewrite <- app_assoc. reflexivity.
    + intros good msg rest Hhot Hlim. rewrite Hhot in E.
      destruct (scan_submissions_fails coin_symbol limit good msg rest 0 []
                  (listed w) Hlim) as [reqs Hrun].
      rewrite Hrun in E. discriminate.
  - destruct (scan_submissions_raised _ _ _ _ _ _ _ _ E) as [msg ->].
    exists [], (set_ui (ui w' ++ [st_error ("Reddit error: " +:+ msg)]) w').
    split; [reflexivity |]. split; [cbn; lia |].
    split; [apply List.Forall_nil |]. split.
    + intros good rest Hne Hhot Hlim. rewrite Hhot in E.
      destruct (scan_submissions_stops coin_symbol limit good rest 0 [] (listed w)
                  Hne Hlim) as (n & Hn & Hlim' & Hrun).
      rewrite Hrun in E. discriminate.
    + intros good msg' rest Hhot Hlim. rewrite Hhot in E.
      destruct (scan_submissions_fails coin_symbol limit good msg' rest 0 []
                  (listed w) Hlim) as [reqs Hrun].
      rewrite Hrun in E. inversion E; subst. split; reflexivity.
Qed.

Lemma fetch_reddit_comments_bounded_witness :
  exists w',
    fetch_reddit_comments "btc" 2 world_reddit
    = (Returned ["BTC up"; "btc down"]%string, w') /\
    requests w' = [RedditHot; RedditSubmission 0].
Proof.
  destruct (fetch_reddit_comments_bounded "btc" 2 world_reddit)
    as (l & w' & Hrun & _ & _ & Hstop & _); [lia |].
  destruct (Hstop [["BTC up"; "eth only"; "btc down"]%string]
                  [FetchError "received 503 HTTP response";
                   SubmissionComments ["more btc"]%string])
    as (Hl & n & Hn & Hreqs);
    [discriminate | reflexivity | apply Z.leb_le; reflexivity |].
  exists w'. split; [rewrite Hrun, Hl; reflexivity |].
  rewrite Hreqs. cbn [length] in Hn.
  replace n with 1%nat by lia. reflexivity.
Defined.

(** ** Retry policy *)

(** C2, at the input where the code departs from it: the coin list service
    fails twice and would answer the third request, the discussion service
    likewise.  Each function makes one attempt, sleeps nothing, shows the
    error and returns its degraded value; the replies that a second and a
    third attempt would have met are left unconsumed. *)
Theorem retry_policy_makes_one_attempt :
  (let r := fetch_all_coins world_failing_twice in
   r.1 = Returned ∅ /\
   requests r.2 = [GetCoinsList] /\
   slept r.2 = [] /\
   net r.2 = [ConnectionError "Connection aborted"; coin_list_reply] /\
   ui r.2 = [st_error "Failed to fetch coins: Connection aborted"]) /\
  (let r := fetch_reddit_comments "btc" 50 world_failing_twice in
   r.1 = Returned [] /\
   requests r.2 = [RedditHot; RedditSubmission 0] /\
   slept r.2 = [] /\
   length (reddit_net r.2) = 2%nat /\
   ui r.2 = [st_error "Reddit error: received 503 HTTP response"]).
Proof. vm_compute. repeat split. Qed.

(** X3: the wrapper is inert on every decorated fetch function, in every world:
    the bodies catch what they raise, so the retry loop runs them once. *)
Lemma retry_policy_inert (w : World) :
  retry_policy fetch_all_coins_body w = fetch_all_coins_body w /\
  (forall coin_id,
     retry_policy (fetch_coin_info_body coin_id) w = fetch_coin_info_body coin_id w) /\
  (forall coin_id days,
     retry_policy (fetch_market_data_body coin_id days) w
     = fetch_market_data_body coin_id days w) /\
  (forall coin_symbol limit,
     retry_policy (fetch_reddit_comments_body coin_symbol limit) w
     = fetch_reddit_comments_body coin_symbol limit w).
Proof.
  repeat split; intros; apply retry_policy_total; intros w0.
  - apply fetch_all_coins_body_returns.
  - apply fetch_coin_info_body_returns.
  - apply fetch_market_data_body_returns.
  - apply fetch_reddit_comments_body_returns.
Qed.

(** ** Empty input of the aggregator *)

(** C3, as stated, fails: with a scorer that finds nothing in "btc", the
    aggregator hands back the same value for no comments and for the one
    neutral comment, so nothing in it tells the two apart. *)
Lemma reports_no_data_counterexample :
  ~ reports_no_data (const_scorer 0).
Proof.
  intros (flag & Hempty & Hfull).
  specialize (Hempty world_reddit).
  specialize (Hfull ["btc"%string] world_reddit ltac:(discriminate)).
  vm_compute in Hempty, Hfull. congruence.
Qed.

(** C3, as the code has it: on the empty sequence the aggregator returns
    exactly 0, shows nothing and hands back nothing else.  The empty case is
    told apart by the caller: when no comment was fetched, the sentiment card
    calls neither the aggregator nor the advisory step and shows a warning
    that no comments were found. *)
Theorem empty_comments_handled_by_caller (polarity : string -> Q)
    (coin_symbol : string) (w w1 : World) :
  fetch_reddit_comments coin_symbol 50
    (set_ui (ui w ++ [st_header "Sentiment Analysis"]) w) = (Returned [], w1) ->
  analyze_comments polarity [] w = (Returned 0, w) /\
  sentiment_card polarity coin_symbol w
  = (Returned tt,
     set_ui (ui w1 ++ [st_warning ("No recent Reddit comments found mentioning "
                                   +:+ upper coin_symbol)]) w1).
Proof.
  intros Hfetch. split; [reflexivity |].
  unfold sentiment_card, bind, emit. rewrite Hfetch. reflexivity.
Qed.

Lemma empty_comments_handled_by_caller_witness :
  exists w',
    sentiment_card (const_scorer 0) "btc" world_failing_once = (Returned tt, w') /\
    ui w' = [st_header "Sentiment Analysis";
             st_error "Reddit error: RequestException";
             st_warning "No recent Reddit comments found mentioning BTC"].
Proof.
  eexists. split.
  - apply (empty_comments_handled_by_caller (const_scorer 0) "btc"
             world_failing_once). vm_compute. reflexivity.
  - reflexivity.
Defined.

(** ** Price series *)

Lemma call_market_data_inv (coin_id : string) (days : Z) (w w' : World)
    (v : Value) :
  call (CallMarketData coin_id days) w = (Returned v, w') ->
  exists series,
    v = VSeries series /\
    fetch_market_data coin_id days w = (Returned series, w').
Proof.
  unfold call, fmap_result.
  destruct (fetch_market_data coin_id days w) as [[series|e] w0];
    intros Hrun; inversion Hrun; subst. eauto.
Qed.

Lemma series_cache_ok_store (coin_id : string) (days : Z) (series : list Q * list Q)
    (w : World) :
  series_cache_ok w ->
  length series.1 = length series.2 ->
  series_cache_ok (store (CallMarketData coin_id days) (VSeries series) w).
Proof.
  unfold series_cache_ok. intros Hok Hlen. cbn.
  apply map_Forall_insert_2; assumption.
Qed.

(** C9: in a world whose stored series are well formed, [fetch_market_data]
    returns, without raising, a pair of a date sequence and a price sequence
    of the same length, and leaves the stored series well formed.  On a
    failed fetch both sequences are empty; on a successful fetch both have
    the length of the list of price points received, zero when there are
    none. *)
Theorem fetch_market_data_equal_lengths (coin_id : string) (days : Z) (w : World) :
  series_cache_ok w ->
  exists dates prices w',
    fetch_market_data coin_id days w = (Returned (dates, prices), w') /\
    length dates = length prices /\
    series_cache_ok w' /\
    (live (CallMarketData coin_id days) w = false ->
     underlying_fails (CallMarketData coin_id days) w = true ->
     dates = [] /\ prices = [] /\
     requests w' = requests w ++ [GetMarketChart coin_id days]) /\
    (live (CallMarketData coin_id days) w = false ->
     forall status data,
       head (net w) = Some (HttpReply status (ChartBody data)) ->
       bad_status status = false ->
       dates = List.map (fun dp : Q * Q => dp.1 / 1000) data /\
       prices = List.map (fun dp : Q * Q => dp.2) data /\
       length dates = length data /\ length prices = length data).
Proof.
  intros Hok. set (c := CallMarketData coin_id days).
  destruct (live c w) eqn:Hlive.
  - unfold live in Hlive.
    destruct (cached_entry c w) as [[v stored]|] eqn:Hentry; [| discriminate].
    apply Qltb_lt in Hlive.
    pose proof (call_run_hit c w v stored Hentry Hlive) as Hrun.
    apply call_market_data_inv in Hrun as ([dates prices] & -> & Hrun).
    exists dates, prices, w. split; [exact Hrun |].
    unfold cached_entry, c in Hentry.
    destruct (cache_market_data w !! (coin_id, days)) as [[x t]|] eqn:Hx;
      [| discriminate].
    inversion Hentry; subst.
    split; [exact (Hok _ _ Hx) |]. split; [exact Hok |].
    split; intros; discriminate.
  - pose proof (call_run_miss c w Hlive) as Hrun.
    unfold underlying_fails.
    destruct (reply_value c (head (net w))) as [v|] eqn:Hreply.
    + pose proof Hrun as Hrun'.
      apply call_market_data_inv in Hrun' as ([dates prices] & -> & Hfetch).
      exists dates, prices. eexists. split; [exact Hfetch |].
      assert (Hshape : exists data,
                 dates = List.map (fun dp : Q * Q => dp.1 / 1000) data /\
                 prices = List.map (fun dp : Q * Q => dp.2) data /\
                 forall status data',
                   head (net w) = Some (HttpReply status (ChartBody data')) ->
                   data' = data).
      { unfold reply_value, c in Hreply.
        destruct (head (net w)) as [[msg|status body]|]; try discriminate.
        destruct (bad_status status); [discriminate |].
        destruct body; try discriminate. inversion Hreply; subst.
        exists prices0. repeat split. intros ? ? H. inversion H. reflexivity. }
      destruct Hshape as (data & -> & -> & Hdata).
      split; [rewrite !List.length_map; reflexivity |].
      split.
      { apply series_cache_ok_store; [exact Hok |].
        cbn [fst snd]. rewrite !List.length_map. reflexivity. }
      split; [intros _ ?; discriminate |].
      intros _ status data' Hhead _. rewrite (Hdata _ _ Hhead).
      rewrite !List.length_map. repeat split.
    + pose proof Hrun as Hrun'.
      apply call_market_data_inv in Hrun' as ([dates prices] & Hv & Hfetch).
      inversion Hv; subst.
      exists [], []. eexists. split; [exact Hfetch |].
      split; [reflexivity |]. split.
      { apply (series_cache_ok_store coin_id days ([], []));
          [exact Hok | reflexivity]. }
      split.
      * intros _ _. repeat split.
      * intros _ status data Hhead Hstatus. exfalso.
        unfold reply_value, c in Hreply. rewrite Hhead, Hstatus in Hreply.
        discriminate.
Qed.

Lemma series_cache_ok_initial (now : Q) (replies : list Reply)
    (feeds : list (list SubmissionFetch)) :
  series_cache_ok (initial_world now replies feeds).
Proof. apply map_Forall_empty. Qed.

Lemma fetch_market_data_equal_lengths_witness :
  exists dates prices w',
    fetch_market_data "bitcoin" 7 world_chart = (Returned (dates, prices), w') /\
    length dates = 2%nat /\ length prices = 2%nat.
Proof.
  destruct (fetch_market_data_equal_lengths "bitcoin" 7 world_chart)
    as (dates & prices & w' & Hrun & _ & _ & _ & Hdata);
    [apply series_cache_ok_initial |].
  destruct (Hdata eq_refl 200%Z
              [(1699900000000, 36500); (1699986400000, 37100)]
              eq_refl eq_refl) as (_ & _ & Hdates & Hprices).
  exists dates, prices, w'. split; [exact Hrun |].
  split; [exact Hdates | exact Hprices].
Defined.

(** ** The flow of the program *)

Lemma evolves_refl (w : World) : evolves w w.
Proof. split; [exists []; symmetry; apply app_nil_r | tauto]. Qed.

Lemma evolves_trans (w1 w2 w3 : World) :
  evolves w1 w2 -> evolves w2 w3 -> evolves w1 w3.
Proof.
  intros [[e1 H1] K1] [[e2 H2] K2]. split; [| tauto].
  exists (e1 ++ e2). rewrite H2, H1, app_assoc. reflexivity.
Qed.

Lemma evolves_emit (e : UiEvent) (w : World) : evolves w (emit e w).2.
Proof. split; [exists [e]; reflexivity | tauto]. Qed.

Lemma reply_value_series (coin_id : string) (days : Z) (r : option Reply)
    (v : Value) :
  reply_value (CallMarketData coin_id days) r = Some v ->
  exists series, v = VSeries series /\ length series.1 = length series.2.
Proof.
  unfold reply_value. destruct r as [[msg|status body]|]; try discriminate.
  destruct (bad_status status); [discriminate |].
  destruct body; try discriminate. intros H. inversion H; subst.
  eexists. split; [reflexivity |]. cbn [fst snd].
  rewrite !List.length_map. reflexivity.
Qed.

Lemma evolves_store (c : Call) (v : Value) (w : World) :
  (forall coin_id days series,
     c = CallMarketData coin_id days -> v = VSeries series ->
     length series.1 = length series.2) ->
  evolves w (store c v w).
Proof.
  intros Hlen. split.
  - exists []. rewrite app_nil_r. destruct c, v; reflexivity.
  - intros Hok. destruct c as [| |coin_id days], v as [| |series]; try exact Hok.
    apply series_cache_ok_store; [exact Hok |]. eapply Hlen; reflexivity.
Qed.

Lemma evolves_before_request (c : Call) (w : World) :
  evolves w (before_request c w).
Proof.
  destruct c; try apply evolves_refl.
  destruct (rate_gate_frame 1 w) as (_ & _ & Hui & _ & _ & Hcache).
  split.
  - exists []. rewrite app_nil_r. exact Hui.
  - unfold series_cache_ok. cbn [before_request]. rewrite Hcache. tauto.
Qed.

(** Every cached call leaves the world evolved. *)
Lemma call_evolves (c : Call) (w : World) : evolves w (call c w).2.
Proof.
  destruct (live c w) eqn:Hlive.
  - unfold live in Hlive.
    destruct (cached_entry c w) as [[v stored]|] eqn:Hentry; [| discriminate].
    apply Qltb_lt in Hlive.
    rewrite (call_run_hit c w v stored Hentry Hlive). apply evolves_refl.
  - rewrite (call_run_miss c w Hlive).
    destruct (reply_value c (head (net w))) as [v|] eqn:Hreply; cbn [snd].
    + eapply evolves_trans; [apply evolves_before_request |].
      eapply evolves_trans; [| apply evolves_store].
      * split; [exists []; rewrite app_nil_r; reflexivity | tauto].
      * intros coin_id days series -> ->.
        apply reply_value_series in Hreply as (s & Hs & Hlen).
        inversion Hs; subst. exact Hlen.
    + eapply evolves_trans; [apply evolves_before_request |].
      eapply evolves_trans; [| apply evolves_store].
      * split; [eexists; reflexivity | tauto].
      * intros coin_id days series -> Hv. inversion Hv. reflexivity.
Qed.

Lemma fetch_all_coins_call (w : World) :
  call CallAllCoins w
  = match fetch_all_coins w with
    | (Returned v, w') => (Returned (VCoins v), w')
    | (Raised e, w') => (Raised e, w')
    end.
Proof. reflexivity. Qed.

Lemma fetch_coin_info_call (coin_id : string) (w : World) :
  call (CallCoinInfo coin_id) w
  = match fetch_coin_info coin_id w with
    | (Returned v, w') => (Returned (VInfo v), w')
    | (Raised e, w') => (Raised e, w')
    end.
Proof. reflexivity. Qed.

Lemma fetch_market_data_call (coin_id : string) (days : Z) (w : World) :
  call (CallMarketData coin_id days) w
  = match fetch_market_data coin_id days w with
    | (Returned v, w') => (Returned (VSeries v), w')
    | (Raised e, w') => (Raised e, w')
    end.
Proof. reflexivity. Qed.

(** A call never raises. *)
Lemma call_returns (c : Call) (w : World) :
  exists v w', call c w = (Returned v, w').
Proof.
  destruct (live c w) eqn:Hlive.
  - unfold live in Hlive.
    destruct (cached_entry c w) as [[v stored]|] eqn:Hentry; [| discriminate].
    apply Qltb_lt in Hlive. rewrite (call_run_hit c w v stored Hentry Hlive).
    eauto.
  - rewrite (call_run_miss c w Hlive). destruct (reply_value _ _); eauto.
Qed.

Lemma steady_ret {A} (v : A) : steady (ret v).
Proof. intros w. apply evolves_refl. Qed.

Lemma steady_raise {A} (e : Exn) : steady (@raise A e).
Proof. intros w. apply evolves_refl. Qed.

Lemma steady_emit (e : UiEvent) : steady (emit e).
Proof. intros w. apply evolves_emit. Qed.

Lemma steady_bind {A B} (m : M A) (k : A -> M B) :
  steady m -> (forall v, steady (k v)) -> steady (bind m k).
Proof.
  intros Hm Hk w. unfold bind. specialize (Hm w).
  destruct (m w) as [[v|e] w']; cbn [snd] in *; [| exact Hm].
  eapply evolves_trans; [exact Hm | apply Hk].
Qed.

Create HintDb steady.
#[local] Hint Resolve steady_ret steady_raise steady_emit : steady.
#[local] Hint Extern 1 (steady (bind _ _)) => apply steady_bind; [| intros ?] : steady.

Lemma steady_fetch_all_coins : steady fetch_all_coins.
Proof.
  intros w. pose proof (call_evolves CallAllCoins w) as H.
  rewrite fetch_all_coins_call in H.
  destruct (fetch_all_coins w) as [[]]; exact H.
Qed.

Lemma steady_fetch_coin_info (coin_id : string) : steady (fetch_coin_info coin_id).
Proof.
  intros w. pose proof (call_evolves (CallCoinInfo coin_id) w) as H.
  rewrite fetch_coin_info_call in H.
  destruct (fetch_coin_info coin_id w) as [[]]; exact H.
Qed.

Lemma steady_fetch_market_data (coin_id : string) (days : Z) :
  steady (fetch_market_data coin_id days).
Proof.
  intros w. pose proof (call_evolves (CallMarketData coin_id days) w) as H.
  rewrite fetch_market_data_call in H.
  destruct (fetch_market_data coin_id days w) as [[]]; exact H.
Qed.

Lemma steady_fetch_reddit_comments (coin_symbol : string) (limit : Z) :
  steady (fetch_reddit_comments coin_symbol limit).
Proof.
  intros w. rewrite fetch_reddit_comments_run, fetch_reddit_comments_body_run.
  destruct (scan_submissions_world coin_symbol limit (hot_listing w) 0 []
              (listed w)) as [reqs Hworld].
  destruct (scan_submissions _ _ _ _ _ _) as [[l|[msg|]] w'];
    cbn [snd] in *; subst w'.
  - split; [exists []; rewrite app_nil_r; reflexivity | tauto].
  - split; [eexists; reflexivity | tauto].
  - split; [exists []; rewrite app_nil_r; reflexivity | tauto].
Qed.

Lemma steady_analyze_comments (polarity : string -> Q) (comments : list string) :
  steady (analyze_comments polarity comments).
Proof. destruct comments; cbn [analyze_comments]; auto with steady. Qed.

Lemma steady_provide_investment_advice (score : Q) :
  steady (provide_investment_advice score).
Proof. apply steady_emit. Qed.

#[local] Hint Resolve steady_fetch_all_coins steady_fetch_coin_info
  steady_fetch_market_data steady_fetch_reddit_comments
  steady_analyze_comments steady_provide_investment_advice : steady.

Lemma steady_display_coin_info (info : option CoinInfo) :
  steady (display_coin_info info).
Proof. destruct info; cbn; auto with steady. Qed.

Lemma steady_display_price_chart (dates prices : list Q) (name : string)
    (period : TimePeriod) :
  steady (display_price_chart dates prices name period).
Proof. destruct dates, prices; cbn; auto with steady. Qed.

Lemma steady_coin_info_name (info : option CoinInfo) : steady (coin_info_name info).
Proof. destruct info; cbn; auto with steady. Qed.

#[local] Hint Resolve steady_display_coin_info steady_display_price_chart
  steady_coin_info_name : steady.

Lemma steady_sentiment_card (polarity : string -> Q) (coin_symbol : string) :
  steady (sentiment_card polarity coin_symbol).
Proof.
  unfold sentiment_card.
  apply steady_bind; [auto with steady |]. intros _.
  apply steady_bind; [auto with steady |]. intros comments.
  destruct comments; auto with steady.
Qed.

Lemma steady_market_card (selected_coin coin_symbol : string)
    (coin_info : option CoinInfo) (period : TimePeriod) (target : Q) :
  steady (market_card selected_coin coin_symbol coin_info period target).
Proof.
  unfold market_card.
  apply steady_bind; [auto with steady |]. intros _.
  apply steady_bind; [auto with steady |]. intros [dates prices]. cbn [fst snd].
  destruct dates, prices; auto with steady.
  apply steady_bind; [auto with steady |]. intros name.
  apply steady_bind; [auto with steady |]. intros _.
  destruct (price_alert _ _ _); auto with steady.
Qed.

#[local] Hint Resolve steady_sentiment_card steady_market_card : steady.

Lemma steady_analysis_cards (polarity : string -> Q)
    (selected_coin coin_symbol : string) (period : TimePeriod) (target : Q) :
  steady (analysis_cards polarity selected_coin coin_symbol period target).
Proof.
  unfold analysis_cards.
  apply steady_bind; [auto with steady |]. intros _.
  apply steady_bind; [auto with steady |]. intros coin_info.
  apply steady_bind; [auto with steady |]. intros _.
  apply steady_bind; [auto with steady |]. intros _.
  auto with steady.
Qed.

(** X14: every run of the program leaves the world evolved: in particular the
    stored price series stay well formed from one run to the next. *)
Lemma steady_main (polarity : string -> Q) (inp : Inputs) :
  steady (main polarity inp).
Proof.
  unfold main.
  apply steady_bind; [auto with steady |]. intros _.
  apply steady_bind; [auto with steady |]. intros coins.
  apply steady_bind.
  { destruct (decide (coins = ∅)); auto with steady. }
  intros _.
  apply steady_bind; [auto with steady |]. intros _.
  apply steady_bind.
  { destruct (analyze_btn inp); [| auto with steady].
    intros w. split; [exists []; rewrite app_nil_r; reflexivity | tauto]. }
  intros _.
  apply steady_bind; [| intros _; auto with steady].
  intros w. destruct (analyze_clicked w); [| apply evolves_refl].
  destruct (coins !! _); [apply steady_analysis_cards | apply evolves_refl].
Qed.

Lemma sentiment_card_returns (polarity : string -> Q) (coin_symbol : string)
    (w : World) :
  exists w',
    sentiment_card polarity coin_symbol w = (Returned tt, w') /\
    evolves (emit (st_header "Sentiment Analysis") w).2 w'.
Proof.
  unfold sentiment_card, bind at 1. cbn [emit].
  set (w1 := set_ui _ w). unfold bind at 1.
  pose proof (steady_fetch_reddit_comments coin_symbol 50 w1) as Hfetch.
  destruct (fetch_reddit_comments_body_returns coin_symbol 50 w1)
    as (comments & w2 & Hrun).
  rewrite <- fetch_reddit_comments_run in Hrun. rewrite Hrun in Hfetch |- *.
  cbn [snd] in Hfetch. destruct comments as [|c comments].
  - eexists. split; [reflexivity |].
    eapply evolves_trans; [exact Hfetch | apply evolves_emit].
  - unfold bind, analyze_comments, provide_investment_advice, emit, ret.
    eexists. split; [reflexivity |].
    eapply evolves_trans; [exact Hfetch |].
    split; [eexists; cbn [ui set_ui]; rewrite <- app_assoc; reflexivity | tauto].
Qed.

Lemma market_card_header (selected_coin coin_symbol : string)
    (coin_info : option CoinInfo) (period : TimePeriod) (target : Q) (w : World) :
  evolves (emit (st_header "Market Data") w).2
          (market_card selected_coin coin_symbol coin_info period target w).2.
Proof.
  unfold market_card, bind at 1. cbn [emit snd].
  set (w1 := set_ui _ w).
  assert (Hrest : steady (
    let! series := fetch_market_data selected_coin (time_mapping period) in
    match series.1, series.2 with
    | _ :: _, _ :: _ =>
        let! name := coin_info_name coin_info in
        exec display_price_chart series.1 series.2 name period in
        match price_alert coin_symbol (List.last series.2 0) target with
        | Some a => emit (st_alert a)
        | None => ret tt
        end
    | _, _ => ret tt
    end)).
  { apply steady_bind; [auto with steady |]. intros [dates prices]. cbn [fst snd].
    destruct dates, prices; auto with steady.
    apply steady_bind; [auto with steady |]. intros name.
    apply steady_bind; [auto with steady |]. intros _.
    destruct (price_alert _ _ _); auto with steady. }
  exact (Hrest w1).
Qed.

(** A call whose underlying operation fails returns the degraded value. *)
Lemma call_fails (c : Call) (w : World) :
  live c w = false ->
  underlying_fails c w = true ->
  call c w = (Returned (degraded c),
              store c (degraded c) (after_failure c (before_request c w))).
Proof.
  intros Hlive Hfails. rewrite (call_run_miss c w Hlive).
  unfold underlying_fails in Hfails.
  destruct (reply_value c (head (net w))); [discriminate | reflexivity].
Qed.

Lemma fetch_all_coins_fails (w : World) :
  live CallAllCoins w = false ->
  underlying_fails CallAllCoins w = true ->
  fetch_all_coins w
  = (Returned ∅,
     store CallAllCoins (VCoins ∅) (after_failure CallAllCoins (rate_gate 1 w))).
Proof.
  intros Hlive Hfails. pose proof (call_fails _ _ Hlive Hfails) as H.
  rewrite fetch_all_coins_call in H.
  destruct (fetch_all_coins w) as [[v|e] w']; inversion H; reflexivity.
Qed.

Lemma fetch_coin_info_fails (coin_id : string) (w : World) :
  live (CallCoinInfo coin_id) w = false ->
  underlying_fails (CallCoinInfo coin_id) w = true ->
  fetch_coin_info coin_id w
  = (Returned None,
     store (CallCoinInfo coin_id) (VInfo None)
           (after_failure (CallCoinInfo coin_id) w)).
Proof.
  intros Hlive Hfails. pose proof (call_fails _ _ Hlive Hfails) as H.
  rewrite fetch_coin_info_call in H.
  destruct (fetch_coin_info coin_id w) as [[v|e] w']; inversion H; reflexivity.
Qed.

Lemma fetch_market_data_fails (coin_id : string) (days : Z) (w : World) :
  live (CallMarketData coin_id days) w = false ->
  underlying_fails (CallMarketData coin_id days) w = true ->
  fetch_market_data coin_id days w
  = (Returned ([], []),
     store (CallMarketData coin_id days) (VSeries ([], []))
           (after_failure (CallMarketData coin_id days) w)).
Proof.
  intros Hlive Hfails. pose proof (call_fails _ _ Hlive Hfails) as H.
  rewrite fetch_market_data_call in H.
  destruct (fetch_market_data coin_id days w) as [[v|e] w']; inversion H;
    reflexivity.
Qed.

Lemma rate_gate_reddit_net (r : Q) (w : World) :
  reddit_net (rate_gate r w) = reddit_net w.
Proof. unfold rate_gate. destruct (Qltb 0 _); reflexivity. Qed.



(** The chart title reads the name out of the coin info: with the coin info
    absent and a price series present, the market data card ends with the
    uncaught [TypeError] of [coin_info['name']], after its header. *)
Lemma market_card_absent_info_raises :
  let r := market_card "bitcoin" "btc" None Days7 0 world_chart in
  r.1 = Raised (PyException "TypeError: 'NoneType' object is not subscriptable") /\
  ui r.2 = [st_header "Market Data"].
Proof. vm_compute. split; reflexivity. Qed.

(** ** The program at work *)

(** A run in which every service answers goes through all the cards, issues
    each request once, sleeps nothing and ends with the footer. *)
Example main_runs_to_footer :
  let r := main two_word_scorer (mkInputs 0 Days7 37000 true) world_answering in
  r.1 = Returned tt /\
  requests r.2 = [GetCoinsList; GetCoin "bitcoin"; RedditHot; RedditSubmission 0;
                  RedditSubmission 1; GetMarketChart "bitcoin" 7] /\
  slept r.2 = [] /\
  List.last (ui r.2) st_footer = st_footer /\
  In (st_alert (AlertReached "BTC" 37000)) (ui r.2) /\
  In (st_success "Strong positive sentiment! Potentially good buying opportunity.")
     (ui r.2).
Proof. vm_compute. tauto. Qed.

(** The waits of the retry policy: 4 seconds after the first three failed
    attempts, then 8, and never more than 10. *)
Example wait_exponential_values :
  List.map (wait_exponential 1 4 10) [1; 2; 3; 4; 5; 9]%nat = [4; 4; 4; 8; 10; 10].
Proof. reflexivity. Qed.

(** The comparison of the symbol ignores the case of ASCII letters and is a
    test for a substring. *)
Example mentions_examples :
  mentions "btc" "Buy BTC now" = true /\
  mentions "BTC" "my btcs" = true /\
  mentions "btc" "b t c" = false /\
  mentions "" "anything" = true.
Proof. repeat split. Qed.

(** With a negative limit the slice [comments[:limit]] drops from the end, so
    the result is not bounded by the limit: the bound of C7 is one for
    limits that are counts. *)
Example fetch_reddit_comments_negative_limit :
  (fetch_reddit_comments "btc" (-1) world_reddit).1 = Returned ["BTC up"%string].
Proof. reflexivity. Qed.

(** * Properties beyond the specification *)

(** ** Cache layer *)

Lemma reply_value_well_shaped (c : Call) (r : option Reply) (v : Value) :
  reply_value c r = Some v -> well_shaped c v.
Proof.
  unfold reply_value. destruct r as [[msg|status body]|]; try discriminate.
  destruct (bad_status status); [discriminate |].
  destruct c, body; intros H; inversion H; exact I.
Qed.

Lemma degraded_well_shaped (c : Call) : well_shaped c (degraded c).
Proof. destruct c; exact I. Qed.

Lemma cached_entry_well_shaped (c : Call) (w : World) (v : Value) (stored : Q) :
  cached_entry c w = Some (v, stored) -> well_shaped c v.
Proof.
  unfold cached_entry. destruct c.
  - destruct (cache_all_coins w !! tt) as [[x t]|]; intros H; inversion H; exact I.
  - destruct (cache_coin_info w !! coin_id) as [[x t]|]; intros H; inversion H;
      exact I.
  - destruct (cache_market_data w !! (coin_id, days)) as [[x t]|]; intros H;
      inversion H; exact I.
Qed.

Lemma cached_entry_store (c : Call) (v : Value) (w : World) :
  well_shaped c v -> cached_entry c (store c v w) = Some (v, clock w).
Proof.
  destruct c, v; intros []; unfold cached_entry, store;
    cbn [cache_all_coins cache_coin_info cache_market_data
         set_cache_all_coins set_cache_coin_info set_cache_market_data];
    rewrite lookup_insert_eq; reflexivity.
Qed.

Lemma ttl_of_pos (c : Call) : 0 < ttl_of c.
Proof. destruct c; reflexivity. Qed.

(** What a call without a live entry returns and where it leaves the world. *)
Lemma call_miss_stores (c : Call) (w : World) :
  live c w = false ->
  exists v w0,
    call c w = (Returned v, store c v w0) /\
    well_shaped c v /\
    requests w0 = requests w ++ [request_of c] /\
    net w0 = tl (net w) /\
    reddit_net w0 = reddit_net (before_request c w) /\
    analyze_clicked w0 = analyze_clicked (before_request c w) /\
    slept w0 = slept (before_request c w) /\
    clock w0 = clock (before_request c w) /\
    ui w0 = ui w ++
      (if underlying_fails c w
       then [st_error (error_message c (failure_text c (head (net w))))]
       else []).
Proof.
  intros Hlive. rewrite (call_run_miss c w Hlive). unfold underlying_fails.
  assert (Hnet : net (before_request c w) = net w)
    by (destruct c; try reflexivity; apply rate_gate_frame).
  assert (Hui : ui (before_request c w) = ui w)
    by (destruct c; try reflexivity; apply rate_gate_frame).
  destruct (reply_value c (head (net w))) as [v|] eqn:Hreply.
  - exists v, (requested (request_of c) (before_request c w)).
    split; [reflexivity |].
    split; [eapply reply_value_well_shaped, Hreply |].
    unfold requested.
    cbn [requests net reddit_net analyze_clicked slept clock ui set_net
         set_requests].
    rewrite requests_before_request, Hnet, Hui, app_nil_r. repeat split.
  - exists (degraded c), (after_failure c (before_request c w)).
    split; [reflexivity |]. split; [apply degraded_well_shaped |].
    unfold after_failure, requested.
    cbn [requests net reddit_net analyze_clicked slept clock ui set_net
         set_requests set_ui].
    rewrite requests_before_request, Hnet, Hui. repeat split.
Qed.


Lemma before_request_frame (c : Call) (w : World) :
  net (before_request c w) = net w /\
  requests (before_request c w) = requests w /\
  ui (before_request c w) = ui w /\
  reddit_net (before_request c w) = reddit_net w /\
  analyze_clicked (before_request c w) = analyze_clicked w.
Proof.
  destruct c; try (repeat split; reflexivity).
  cbn [before_request]. unfold rate_gate.
  destruct (Qltb 0 _); repeat split.
Qed.

Lemma store_frame (c : Call) (v : Value) (w : World) :
  net (store c v w) = net w /\
  ui (store c v w) = ui w /\
  reddit_net (store c v w) = reddit_net w /\
  analyze_clicked (store c v w) = analyze_clicked w /\
  slept (store c v w) = slept w /\
  last_time_called (store c v w) = last_time_called w.
Proof. destruct c, v; repeat split. Qed.

(** The effects of a cached call, with and without a live entry. *)
Lemma call_effects (c : Call) (w : World) :
  exists v w',
    call c w = (Returned v, w') /\
    well_shaped c v /\
    requests w' = requests w ++ (if live c w then [] else [request_of c]) /\
    ui w' = ui w ++
      (if live c w then []
       else if underlying_fails c w
            then [st_error (error_message c (failure_text c (head (net w))))]
            else []) /\
    net w' = (if live c w then net w else tl (net w)) /\
    reddit_net w' = reddit_net w /\
    analyze_clicked w' = analyze_clicked w.
Proof.
  destruct (live c w) eqn:Hlive.
  - unfold live in Hlive.
    destruct (cached_entry c w) as [[v stored]|] eqn:Hentry; [| discriminate].
    apply Qltb_lt in Hlive. exists v, w.
    split; [apply (call_run_hit c w v stored Hentry Hlive) |].
    split; [eapply cached_entry_well_shaped, Hentry |].
    rewrite !app_nil_r. repeat split.
  - destruct (call_miss_stores c w Hlive)
      as (v & w0 & Hrun & Hshape & Hreq & Hnet & Hreddit & Hclick & _ & _ & Hui).
    destruct (before_request_frame c w) as (_ & _ & _ & Hr & Hc).
    destruct (store_frame c v w0) as (Hn' & Hu' & Hr' & Hc' & _).
    exists v, (store c v w0). split; [exact Hrun |]. split; [exact Hshape |].
    rewrite requests_store, Hn', Hu', Hr', Hc', Hreq, Hnet, Hui, Hreddit, Hclick.
    repeat split; assumption.
Qed.


Lemma cached_entry_requested (c' : Call) (req : Request) (w : World) :
  cached_entry c' (requested req w) = cached_entry c' w.
Proof. destruct c'; reflexivity. Qed.

Lemma cached_entry_before_request (c c' : Call) (w : World) :
  cached_entry c' (before_request c w) = cached_entry c' w.
Proof.
  destruct c; try reflexivity. cbn [before_request].
  destruct (rate_gate_frame 1 w) as (_ & _ & _ & H1 & H2 & H3).
  unfold cached_entry. destruct c'; rewrite ?H1, ?H2, ?H3; reflexivity.
Qed.

Lemma cached_entry_store_other (c c' : Call) (v : Value) (w : World) :
  c <> c' -> cached_entry c' (store c v w) = cached_entry c' w.
Proof.
  intros Hne.
  destruct c as [|id|id days], v, c' as [|id'|id' days']; try reflexivity;
    try congruence; unfold cached_entry, store;
    cbn [cache_all_coins cache_coin_info cache_market_data
         set_cache_all_coins set_cache_coin_info set_cache_market_data].
  - rewrite lookup_insert_ne; [reflexivity | congruence].
  - rewrite lookup_insert_ne; [reflexivity | congruence].
Qed.

(** X6: the cache is keyed by the operation and its arguments: a call leaves
    the entry of every other call, for another operation or for other
    arguments, as it was. *)
Theorem call_keeps_other_entries (c c' : Call) (w : World) :
  c <> c' -> cached_entry c' (call c w).2 = cached_entry c' w.
Proof.
  intros Hne. destruct (live c w) eqn:Hlive.
  - unfold live in Hlive.
    destruct (cached_entry c w) as [[v stored]|] eqn:Hentry; [| discriminate].
    apply Qltb_lt in Hlive.
    rewrite (call_run_hit c w v stored Hentry Hlive). reflexivity.
  - rewrite (call_run_miss c w Hlive).
    destruct (reply_value c (head (net w))); cbn [snd];
      rewrite cached_entry_store_other by exact Hne.
    + rewrite cached_entry_requested. apply cached_entry_before_request.
    + unfold after_failure.
      transitivity (cached_entry c' (requested (request_of c) (before_request c w)));
        [destruct c'; reflexivity |].
      rewrite cached_entry_requested. apply cached_entry_before_request.
Qed.

Lemma call_keeps_other_entries_witness :
  let w := (call (CallCoinInfo "bitcoin") world_chart).2 in
  cached_entry (CallCoinInfo "ethereum") w = None /\
  cached_entry (CallMarketData "bitcoin" 7) w = None.
Proof.
  cbv zeta. split.
  - rewrite (call_keeps_other_entries (CallCoinInfo "bitcoin")
               (CallCoinInfo "ethereum") world_chart); [reflexivity | discriminate].
  - rewrite (call_keeps_other_entries (CallCoinInfo "bitcoin")
               (CallMarketData "bitcoin" 7) world_chart);
      [reflexivity | discriminate].
Defined.

(** X7: an entry that has reached its time-to-live is not served: the call
    issues the request, returns what the reply gives and stores it in place
    of the old value with the time of storing. *)
Theorem expired_entry_is_replaced (c : Call) (w : World) (old v : Value)
    (stored : Q) :
  cached_entry c w = Some (old, stored) ->
  ttl_of c <= clock w - stored ->
  reply_value c (head (net w)) = Some v ->
  exists w',
    call c w = (Returned v, w') /\
    requests w' = requests w ++ [request_of c] /\
    cached_entry c w' = Some (v, clock w').
Proof.
  intros Hentry Hold Hreply.
  assert (Hlive : live c w = false).
  { unfold live. rewrite Hentry. apply Qltb_ge, Hold. }
  rewrite (call_run_miss c w Hlive), Hreply. eexists. split; [reflexivity |].
  split.
  - rewrite requests_store. unfold requested. cbn [requests set_net set_requests].
    rewrite requests_before_request. reflexivity.
  - rewrite clock_store. apply cached_entry_store.
    eapply reply_value_well_shaped, Hreply.
Qed.

Lemma expired_entry_is_replaced_witness :
  exists w',
    call CallAllCoins world_after_expiry
    = (Returned (VCoins (coin_dict [("bitcoin", "btc"); ("ethereum", "eth")]%string)),
       w') /\
    requests w' = [GetCoinsList; GetCoinsList].
Proof.
  destruct (expired_entry_is_replaced CallAllCoins world_after_expiry
              (VCoins ∅)
              (VCoins (coin_dict [("bitcoin", "btc"); ("ethereum", "eth")]%string))
              1700000000)
    as (w' & Hrun & Hreq & _);
    [reflexivity | vm_compute; discriminate | reflexivity |].
  exists w'. split; [exact Hrun | exact Hreq].
Defined.

(** ** Rate limiter *)

Lemma rate_gate_spacing (r : Q) (w : World) :
  1 / r <= clock (rate_gate r w) - last_time_called w /\
  last_time_called (rate_gate r w) = clock (rate_gate r w) /\
  clock w <= clock (rate_gate r w) /\
  (1 / r <= clock w - last_time_called w ->
   slept (rate_gate r w) = slept w /\ clock (rate_gate r w) = clock w).
Proof.
  unfold rate_gate. set (interval := 1 / r).
  destruct (Qltb 0 (interval - (clock w - last_time_called w))) eqn:E.
  - apply Qltb_lt in E.
    cbn [sleep snd clock last_time_called slept set_last_time_called set_slept
         set_clock].
    repeat split; lra.
  - apply Qltb_ge in E.
    cbn [clock last_time_called slept set_last_time_called].
    repeat split; lra.
Qed.

Lemma fetch_all_coins_body_last_time_called (w : World) :
  last_time_called (retry_policy fetch_all_coins_body w).2 = last_time_called w.
Proof.
  rewrite (retry_policy_total _ fetch_all_coins_body_returns).
  rewrite fetch_all_coins_body_run.
  destruct (reply_value _ _) as [[]|]; reflexivity.
Qed.

(** X1: the rate limiter keeps two successive calls of the function it wraps
    apart: the second starts the function at least [1 / max_per_second]
    seconds after the first started it, and the limiter does not wait when
    that much time has passed already. *)
Theorem rate_limited_spacing {A} (max_per_second : Q) (func : M A) (w w' : World) :
  (forall x, last_time_called (func x).2 = last_time_called x) ->
  last_time_called w' = last_time_called (rate_limited max_per_second func w).2 ->
  exists w0 w1,
    rate_limited max_per_second func w = func w0 /\
    rate_limited max_per_second func w' = func w1 /\
    1 / max_per_second <= clock w1 - clock w0 /\
    (1 / max_per_second <= clock w' - last_time_called w' ->
     slept w1 = slept w' /\ clock w1 = clock w').
Proof.
  intros Hfunc Hlast.
  exists (rate_gate max_per_second w), (rate_gate max_per_second w').
  rewrite !rate_limited_run. split; [reflexivity |]. split; [reflexivity |].
  rewrite rate_limited_run, Hfunc in Hlast.
  destruct (rate_gate_spacing max_per_second w) as (_ & Hset & _).
  destruct (rate_gate_spacing max_per_second w') as (Hgap & _ & _ & Hidle).
  rewrite Hlast, Hset in Hgap. split; [exact Hgap | exact Hidle].
Qed.

Lemma rate_limited_spacing_witness :
  let func := retry_policy fetch_all_coins_body in
  exists w0 w1,
    rate_limited 1 func world_failing_twice = func w0 /\
    rate_limited 1 func (rate_limited 1 func world_failing_twice).2 = func w1 /\
    1 <= clock w1 - clock w0.
Proof.
  cbv zeta.
  destruct (rate_limited_spacing 1 (retry_policy fetch_all_coins_body)
              world_failing_twice
              (rate_limited 1 (retry_policy fetch_all_coins_body)
                 world_failing_twice).2)
    as (w0 & w1 & H0 & H1 & Hgap & _);
    [apply fetch_all_coins_body_last_time_called | reflexivity |].
  exists w0, w1. split; [exact H0 |]. split; [exact H1 |].
  exact Hgap.
Defined.

(** ** Retry policy *)

(** X2: whatever the wrapped function does, the retry wrapper pauses at most
    twice in a call, for 4 seconds each time: a third failure is not
    followed by a wait or a fourth attempt. *)
Theorem retry_policy_pauses {A} (func : M A) (w : World) :
  (forall x, slept (func x).2 = slept x) ->
  exists pauses,
    slept (retry_policy func w).2 = slept w ++ pauses /\
    (pauses = [] \/ pauses = [4] \/ pauses = [4; 4]).
Proof.
  intros Hfunc. unfold retry_policy, retry. cbn [Nat.sub retry_from].
  destruct wait_exponential_first_two as [E1 E2]. rewrite E1, E2.
  unfold bind, sleep.
  pose proof (Hfunc w) as H0.
  destruct (func w) as [[v|[msg|]] w1]; cbn [snd] in H0;
    [exists []; rewrite app_nil_r; auto | | exists []; rewrite app_nil_r; auto].
  set (w1' := set_slept _ _).
  assert (Hw1 : slept w1' = slept w ++ [4]) by (subst w1'; cbn; rewrite H0; auto).
  pose proof (Hfunc w1') as H1. rewrite Hw1 in H1.
  destruct (func w1') as [[v|[msg'|]] w2]; cbn [snd] in H1;
    [exists [4]; auto | | exists [4]; auto].
  set (w2' := set_slept _ _).
  assert (Hw2 : slept w2' = slept w ++ [4; 4])
    by (subst w2'; cbn [slept set_slept set_clock]; rewrite H1, <- app_assoc; auto).
  pose proof (Hfunc w2') as H2. rewrite Hw2 in H2.
  exists [4; 4].
  destruct (func w2') as [[v|[msg''|]] w3]; cbn [snd] in H2 |- *; auto.
Qed.

Lemma retry_policy_pauses_witness :
  exists pauses,
    slept (retry_policy (requests_get GetCoinsList) world_failing_twice).2 = pauses /\
    (length pauses <= 2)%nat.
Proof.
  destruct (retry_policy_pauses (requests_get GetCoinsList) world_failing_twice)
    as (pauses & Hslept & Hcases).
  { intros x. unfold requests_get.
    destruct (net x) as [|[msg|status body] rest]; reflexivity. }
  exists pauses. split; [exact Hslept |].
  destruct Hcases as [-> | [-> | ->]]; cbn; lia.
Defined.

(** ** Market data client *)

Lemma fold_coin_dict_lookup (coins : list (string * string)) :
  forall (d : gmap string string) (coin_id : string),
  fold_left (fun d coin => <[coin.1 := coin.2]> d) coins d !! coin_id
  = match last_symbol coins coin_id with
    | Some symbol => Some symbol
    | None => d !! coin_id
    end.
Proof.
  induction coins as [|[id symbol] rest IH]; intros d coin_id; [reflexivity |].
  cbn [fold_left last_symbol fst snd]. rewrite IH.
  destruct (last_symbol rest coin_id); [reflexivity |].
  destruct (String.eqb id coin_id) eqn:E.
  - apply String.eqb_eq in E. subst. apply lookup_insert_eq.
  - apply String.eqb_neq in E. apply lookup_insert_ne. exact E.
Qed.

Lemma last_symbol_is_Some (coins : list (string * string)) (coin_id : string) :
  is_Some (last_symbol coins coin_id) <-> In coin_id (List.map fst coins).
Proof.
  induction coins as [|[id symbol] rest IH];
    cbn [last_symbol List.map In fst snd].
  - split; [intros [x Hx]; discriminate | tauto].
  - destruct (last_symbol rest coin_id) as [s|] eqn:E.
    + split; [intros _; right; apply IH; eauto | eauto].
    + destruct (String.eqb id coin_id) eqn:Eid.
      * apply String.eqb_eq in Eid. split; [auto | eauto].
      * apply String.eqb_neq in Eid. split.
        -- intros [x Hx]. discriminate.
        -- intros [Hid | Hin]; [congruence |]. apply IH in Hin. exact Hin.
Qed.

(** X8: the mapping built from the coin list holds, for every id of the list,
    the symbol of the last entry with that id, and nothing for other ids; it
    is empty exactly when the list is. *)
Theorem coin_dict_lookup (coins : list (string * string)) :
  (forall coin_id, coin_dict coins !! coin_id = last_symbol coins coin_id) /\
  (forall coin_id,
     is_Some (coin_dict coins !! coin_id) <-> In coin_id (List.map fst coins)) /\
  (coin_dict coins = ∅ <-> coins = []).
Proof.
  assert (Hlookup : forall coin_id,
            coin_dict coins !! coin_id = last_symbol coins coin_id).
  { intros coin_id. unfold coin_dict. rewrite fold_coin_dict_lookup.
    destruct (last_symbol coins coin_id); [reflexivity | apply lookup_empty]. }
  split; [exact Hlookup |]. split.
  - intros coin_id. rewrite Hlookup. apply last_symbol_is_Some.
  - split.
    + intros Hempty. destruct coins as [|[id symbol] rest]; [reflexivity |].
      exfalso. assert (Hsome : is_Some (coin_dict ((id, symbol) :: rest) !! id)).
      { rewrite Hlookup. apply last_symbol_is_Some. left. reflexivity. }
      rewrite Hempty, lookup_empty in Hsome. destruct Hsome; discriminate.
    + intros ->. reflexivity.
Qed.

(** ** The flow of the program, further *)

Lemma fetch_market_data_returns (coin_id : string) (days : Z) (w : World) :
  exists series w',
    fetch_market_data coin_id days w = (Returned series, w') /\
    call (CallMarketData coin_id days) w = (Returned (VSeries series), w').
Proof.
  destruct (call_returns (CallMarketData coin_id days) w) as (v & w' & Hrun).
  pose proof Hrun as Hcall.
  apply call_market_data_inv in Hrun as (series & -> & Hrun). eauto.
Qed.

Lemma fetch_coin_info_returns (coin_id : string) (w : World) :
  exists info w',
    fetch_coin_info coin_id w = (Returned info, w') /\
    call (CallCoinInfo coin_id) w = (Returned (VInfo info), w').
Proof.
  destruct (call_returns (CallCoinInfo coin_id) w) as (v & w' & Hrun).
  pose proof Hrun as Hcall. rewrite fetch_coin_info_call in Hrun.
  destruct (fetch_coin_info coin_id w) as [[info|e] w0]; inversion Hrun; subst.
  eauto.
Qed.

Lemma fetch_all_coins_returns (w : World) :
  exists coins w',
    fetch_all_coins w = (Returned coins, w') /\
    call CallAllCoins w = (Returned (VCoins coins), w').
Proof.
  destruct (call_returns CallAllCoins w) as (v & w' & Hrun).
  pose proof Hrun as Hcall. rewrite fetch_all_coins_call in Hrun.
  destruct (fetch_all_coins w) as [[coins|e] w0]; inversion Hrun; subst.
  eauto.
Qed.

Lemma price_alert_events (coin_symbol : string) (current target : Q) :
  match price_alert coin_symbol current target with
  | Some a => [st_alert a]
  | None => []
  end
  = if Qltb 0 target
    then if Qle_bool target current
         then [st_alert (AlertReached (upper coin_symbol) target)]
         else [st_alert (AlertDroppedBelow (upper coin_symbol) target)]
    else [].
Proof.
  unfold price_alert.
  destruct (Qltb 0 target) eqn:Et, (Qle_bool target current) eqn:Ec;
    cbn [andb]; try reflexivity.
  - apply Qle_bool_gt in Ec.
    assert (H : Qle_bool current target = true) by (apply Qle_bool_iff; lra).
    rewrite H. reflexivity.
  - rewrite andb_false_r. reflexivity.
  - rewrite andb_false_r. reflexivity.
Qed.

(** X9: the market data card ends normally when the price series is empty,
    without showing anything for it; with a series it needs the coin info
    for the chart title: with the info it shows the chart and then, for a
    positive target only, one alert decided by the last price, and with the
    info absent it ends with the uncaught [TypeError] before showing the
    chart. *)
Theorem market_card_outcome (selected_coin coin_symbol : string)
    (coin_info : option CoinInfo) (period : TimePeriod) (target : Q) (w : World) :
  exists dates prices w1,
    fetch_market_data selected_coin (time_mapping period) (at_market_data w)
    = (Returned (dates, prices), w1) /\
    (dates = [] \/ prices = [] ->
     market_card selected_coin coin_symbol coin_info period target w
     = (Returned tt, w1)) /\
    (dates <> [] -> prices <> [] -> coin_info = None ->
     market_card selected_coin coin_symbol coin_info period target w
     = (Raised (PyException "TypeError: 'NoneType' object is not subscriptable"),
        w1)) /\
    (dates <> [] -> prices <> [] -> forall info, coin_info = Some info ->
     exists w',
       market_card selected_coin coin_symbol coin_info period target w
       = (Returned tt, w') /\
       ui w' = ui w1 ++ chart_and_alert coin_symbol dates prices info period target).
Proof.
  destruct (fetch_market_data_returns selected_coin (time_mapping period)
              (at_market_data w)) as ([dates prices] & w1 & Hrun & _).
  exists dates, prices, w1. split; [exact Hrun |].
  assert (Hstep :
    market_card selected_coin coin_symbol coin_info period target w
    = match dates, prices with
      | _ :: _, _ :: _ =>
          (let! name := coin_info_name coin_info in
           exec display_price_chart dates prices name period in
           match price_alert coin_symbol (List.last prices 0) target with
           | Some a => emit (st_alert a)
           | None => ret tt
           end) w1
      | _, _ => (Returned tt, w1)
      end).
  { unfold market_card, bind at 1. cbn [emit]. fold (at_market_data w).
    unfold bind at 1. rewrite Hrun. cbn [fst snd].
    destruct dates, prices; reflexivity. }
  rewrite Hstep. split; [| split].
  - intros [-> | ->]; [reflexivity | destruct dates; reflexivity].
  - intros Hd Hp ->. destruct dates; [congruence |]. destruct prices; [congruence |].
    reflexivity.
  - intros Hd Hp info ->. destruct dates as [|d dates]; [congruence |].
    destruct prices as [|p prices]; [congruence |].
    unfold bind, coin_info_name, ret, display_price_chart, emit, chart_and_alert.
    rewrite <- price_alert_events.
    destruct (price_alert coin_symbol (List.last (p :: prices) 0) target);
      eexists; (split; [reflexivity |]); cbn [ui set_ui];
      rewrite <- ?app_assoc; reflexivity.
Qed.

Lemma market_card_result (selected_coin coin_symbol : string)
    (coin_info : option CoinInfo) (period : TimePeriod) (target : Q) (w : World) :
  exists w',
    market_card selected_coin coin_symbol coin_info period target w
    = (Returned tt, w') \/
    market_card selected_coin coin_symbol coin_info period target w
    = (Raised (PyException "TypeError: 'NoneType' object is not subscriptable"),
       w').
Proof.
  destruct (market_card selected_coin coin_symbol coin_info period target w)
    as [r w'] eqn:E. exists w'.
  destruct (fetch_market_data_returns selected_coin (time_mapping period)
              (at_market_data w)) as ([dates prices] & w1 & Hrun & _).
  unfold market_card, bind at 1 in E. cbn [emit] in E. fold (at_market_data w) in E.
  unfold bind at 1 in E. rewrite Hrun in E. cbn [fst snd] in E.
  destruct dates as [|d dates]; [inversion E; auto |].
  destruct prices as [|p prices]; [inversion E; auto |].
  destruct coin_info as [info|]; [| inversion E; auto].
  unfold bind, coin_info_name, ret, display_price_chart, emit in E.
  destruct (price_alert _ _ _); inversion E; auto.
Qed.

Lemma display_coin_info_returns (info : option CoinInfo) (w : World) :
  exists w', display_coin_info info w = (Returned tt, w').
Proof. destruct info; eexists; reflexivity. Qed.

Lemma analysis_cards_result (polarity : string -> Q)
    (selected_coin coin_symbol : string) (period : TimePeriod) (target : Q)
    (w : World) :
  exists w',
    analysis_cards polarity selected_coin coin_symbol period target w
    = (Returned tt, w') \/
    analysis_cards polarity selected_coin coin_symbol period target w
    = (Raised (PyException "TypeError: 'NoneType' object is not subscriptable"),
       w').
Proof.
  destruct (analysis_cards polarity selected_coin coin_symbol period target w)
    as [r w'] eqn:E. exists w'.
  unfold analysis_cards, bind at 1 in E. cbn [emit] in E.
  set (w1 := set_ui _ w) in E. unfold bind at 1 in E.
  destruct (fetch_coin_info_returns selected_coin w1) as (info & w2 & Hinfo & _).
  rewrite Hinfo in E. unfold bind at 1 in E.
  destruct (display_coin_info_returns info w2) as (w3 & Hshow).
  rewrite Hshow in E. unfold bind at 1 in E.
  destruct (sentiment_card_returns polarity coin_symbol w3) as (w4 & Hcard & _).
  rewrite Hcard in E.
  destruct (market_card_result selected_coin coin_symbol info period target w4)
    as (w5 & [H | H]); rewrite H in E; inversion E; auto.
Qed.

Lemma selectbox_in (options : list string) (choice : nat) :
  options <> [] -> selectbox options choice ∈ options.
Proof.
  intros Hne. unfold selectbox.
  destruct (options !! choice) as [x|] eqn:E.
  - eapply list_elem_of_lookup_2, E.
  - destruct options; [congruence | left].
Qed.

(** The coin picked in the selector is a key of the coin mapping. *)
Lemma selected_coin_is_key (coins : gmap string string) (choice : nat) :
  coins <> ∅ ->
  is_Some (coins !! selectbox (map_to_list coins).*1 choice).
Proof.
  intros Hne.
  assert (Hopts : (map_to_list coins).*1 <> []).
  { intros Hnil. apply fmap_nil_inv in Hnil.
    apply map_to_list_empty_iff in Hnil. contradiction. }
  pose proof (selectbox_in _ choice Hopts) as Hin.
  apply list_elem_of_fmap in Hin as ([k v] & -> & Hkv).
  apply elem_of_map_to_list in Hkv. cbn [fst]. eauto.
Qed.


Lemma calm_ret {A} (v : A) : calm (ret v).
Proof. intros w. repeat split. Qed.

Lemma calm_raise {A} (e : Exn) : calm (@raise A e).
Proof. intros w. repeat split. Qed.

Lemma calm_emit (e : UiEvent) : calm (emit e).
Proof. intros w. repeat split. Qed.

Lemma calm_bind {A B} (m : M A) (k : A -> M B) :
  calm m -> (forall v, calm (k v)) -> calm (bind m k).
Proof.
  intros Hm Hk w. unfold bind. specialize (Hm w).
  destruct (m w) as [[v|e] w']; cbn [snd] in *; [| exact Hm].
  destruct Hm as (H1 & H2 & H3 & H4). destruct (Hk v w') as (K1 & K2 & K3 & K4).
  rewrite K1, K2, K3, K4. repeat split; assumption.
Qed.

(** A cached call other than the rate-limited one is calm. *)
Lemma calm_call (c : Call) : c <> CallAllCoins -> calm (call c).
Proof.
  intros Hc w. destruct (live c w) eqn:Hlive.
  - unfold live in Hlive.
    destruct (cached_entry c w) as [[v stored]|] eqn:Hentry; [| discriminate].
    apply Qltb_lt in Hlive. rewrite (call_run_hit c w v stored Hentry Hlive).
    repeat split.
  - rewrite (call_run_miss c w Hlive).
    destruct c; [congruence | |];
      destruct (reply_value _ _) as [[]|]; repeat split.
Qed.

Lemma calm_fetch_coin_info (coin_id : string) : calm (fetch_coin_info coin_id).
Proof.
  intros w.
  pose proof (calm_call (CallCoinInfo coin_id) ltac:(discriminate) w) as H.
  rewrite fetch_coin_info_call in H.
  destruct (fetch_coin_info coin_id w) as [[]]; exact H.
Qed.

Lemma calm_fetch_market_data (coin_id : string) (days : Z) :
  calm (fetch_market_data coin_id days).
Proof.
  intros w.
  pose proof (calm_call (CallMarketData coin_id days) ltac:(discriminate) w) as H.
  rewrite fetch_market_data_call in H.
  destruct (fetch_market_data coin_id days w) as [[]]; exact H.
Qed.

Lemma calm_fetch_reddit_comments (coin_symbol : string) (limit : Z) :
  calm (fetch_reddit_comments coin_symbol limit).
Proof.
  intros w. rewrite fetch_reddit_comments_run, fetch_reddit_comments_body_run.
  destruct (scan_submissions_world coin_symbol limit (hot_listing w) 0 []
              (listed w)) as [reqs Hworld].
  destruct (scan_submissions _ _ _ _ _ _) as [[l|[msg|]] w'];
    cbn [snd] in *; subst w'; repeat split.
Qed.

Create HintDb calm.
#[local] Hint Resolve calm_ret calm_raise calm_emit calm_fetch_coin_info
  calm_fetch_market_data calm_fetch_reddit_comments : calm.

Lemma calm_sentiment_card (polarity : string -> Q) (coin_symbol : string) :
  calm (sentiment_card polarity coin_symbol).
Proof.
  unfold sentiment_card.
  apply calm_bind; [auto with calm |]. intros _.
  apply calm_bind; [auto with calm |]. intros comments.
  destruct comments as [|c comments]; [auto with calm |].
  apply calm_bind; [| intros score; apply calm_emit].
  cbn [analyze_comments]. apply calm_bind; [auto with calm |].
  intros _. auto with calm.
Qed.

Lemma calm_market_card (selected_coin coin_symbol : string)
    (coin_info : option CoinInfo) (period : TimePeriod) (target : Q) :
  calm (market_card selected_coin coin_symbol coin_info period target).
Proof.
  unfold market_card.
  apply calm_bind; [auto with calm |]. intros _.
  apply calm_bind; [auto with calm |]. intros [dates prices]. cbn [fst snd].
  destruct dates, prices; auto with calm.
  apply calm_bind; [destruct coin_info; cbn; auto with calm |]. intros name.
  apply calm_bind; [cbn; auto with calm |]. intros _.
  destruct (price_alert _ _ _); auto with calm.
Qed.

Lemma calm_analysis_cards (polarity : string -> Q)
    (selected_coin coin_symbol : string) (period : TimePeriod) (target : Q) :
  calm (analysis_cards polarity selected_coin coin_symbol period target).
Proof.
  unfold analysis_cards.
  apply calm_bind; [auto with calm |]. intros _.
  apply calm_bind; [auto with calm |]. intros coin_info.
  apply calm_bind; [destruct coin_info; cbn; auto with calm |]. intros _.
  apply calm_bind; [apply calm_sentiment_card |]. intros _.
  apply calm_market_card.
Qed.

(** X11: the three analysis cards never wait and never touch the session
    state: since no fetch is retried, no back-off is slept, and the clock,
    the rate limiter and the "analyze clicked" flag are as before. *)
Theorem analysis_cards_never_wait (polarity : string -> Q)
    (selected_coin coin_symbol : string) (period : TimePeriod) (target : Q)
    (w : World) :
  let w' := (analysis_cards polarity selected_coin coin_symbol period target w).2 in
  slept w' = slept w /\
  clock w' = clock w /\
  last_time_called w' = last_time_called w /\
  analyze_clicked w' = analyze_clicked w.
Proof. apply calm_analysis_cards. Qed.

Lemma main_split (polarity : string -> Q) (inp : Inputs) (w : World) :
  main polarity inp w
  = (let! coins := fetch_all_coins in main_after_coins polarity inp coins)
      (at_coin_selector w).
Proof. reflexivity. Qed.

(** After the coin list, [main] waits for nothing; it sets the session flag
    when the button was pressed and the list is not empty, and leaves it
    alone otherwise. *)
Lemma main_after_coins_effects (polarity : string -> Q) (inp : Inputs)
    (coins : gmap string string) (w : World) :
  let w' := (main_after_coins polarity inp coins w).2 in
  slept w' = slept w /\
  clock w' = clock w /\
  last_time_called w' = last_time_called w /\
  analyze_clicked w'
  = (if decide (coins = ∅) then analyze_clicked w
     else analyze_clicked w || analyze_btn inp).
Proof.
  cbv zeta. unfold main_after_coins, bind at 1.
  destruct (decide (coins = ∅)) as [Hempty | Hne]; [repeat split |].
  cbn [ret]. unfold bind at 1. cbn [emit]. set (w2 := set_ui _ w).
  assert (Htail : forall w3,
    slept w3 = slept w -> clock w3 = clock w ->
    last_time_called w3 = last_time_called w ->
    let w' := ((exec fun w : World =>
                  (if analyze_clicked w
                   then
                     match coins !! selectbox (map_to_list coins).*1
                                      (coin_choice inp) with
                     | Some coin_symbol =>
                         analysis_cards polarity
                           (selectbox (map_to_list coins).*1 (coin_choice inp))
                           coin_symbol (time_choice inp) (price_alert_input inp)
                     | None => raise (PyException "KeyError")
                     end
                   else ret tt) w
                in emit st_footer) w3).2 in
    slept w' = slept w /\ clock w' = clock w /\
    last_time_called w' = last_time_called w /\
    analyze_clicked w' = analyze_clicked w3).
  { intros w3 H1 H2 H3. cbv zeta. rewrite <- H1, <- H2, <- H3.
    apply calm_bind; [| intros _; apply calm_emit].
    intros x.
    assert (Hthen : calm
              match coins !! selectbox (map_to_list coins).*1 (coin_choice inp) with
              | Some coin_symbol =>
                  analysis_cards polarity
                    (selectbox (map_to_list coins).*1 (coin_choice inp))
                    coin_symbol (time_choice inp) (price_alert_input inp)
              | None => raise (PyException "KeyError")
              end)
      by (destruct (coins !! _); [apply calm_analysis_cards | apply calm_raise]).
    pose proof (Hthen x) as Hx. pose proof (calm_ret tt x) as Hr.
    destruct (analyze_clicked x) eqn:Ex; [exact Hx | exact Hr]. }
  unfold bind at 1. destruct (analyze_btn inp).
  - destruct (Htail (set_analyze_clicked true w2)) as (H1 & H2 & H3 & H4);
      try reflexivity.
    split; [exact H1 |]. split; [exact H2 |]. split; [exact H3 |].
    rewrite orb_true_r. exact H4.
  - destruct (Htail w2) as (H1 & H2 & H3 & H4); try reflexivity.
    split; [exact H1 |]. split; [exact H2 |]. split; [exact H3 |].
    rewrite orb_false_r. exact H4.
Qed.

(** X12: the "analyze clicked" flag of the session is sticky: a run of
    [main] that gets a non-empty coin mapping leaves it set when it was set
    or the button was pressed, and no run clears it; a run that stops for
    want of coins leaves it as it was. *)
Theorem main_session_flag (polarity : string -> Q) (inp : Inputs) (w : World) :
  exists coins w1,
    fetch_all_coins (at_coin_selector w) = (Returned coins, w1) /\
    analyze_clicked (main polarity inp w).2
    = (if decide (coins = ∅) then analyze_clicked w
       else analyze_clicked w || analyze_btn inp).
Proof.
  destruct (fetch_all_coins_returns (at_coin_selector w))
    as (coins & w1 & Hrun & Hcall).
  exists coins, w1. split; [exact Hrun |].
  rewrite main_split. unfold bind at 1. rewrite Hrun.
  destruct (main_after_coins_effects polarity inp coins w1) as (_ & _ & _ & ->).
  destruct (call_effects CallAllCoins (at_coin_selector w))
    as (v & w1' & Hcall' & _ & _ & _ & _ & _ & Hclick).
  rewrite Hcall in Hcall'. inversion Hcall'; subst.
  rewrite Hclick. reflexivity.
Qed.

Lemma rate_gate_slept (w : World) :
  slept (rate_gate 1 w)
  = slept w ++ (if Qltb 0 (coin_list_wait w) then [coin_list_wait w] else []).
Proof.
  unfold rate_gate, coin_list_wait.
  destruct (Qltb 0 _); [reflexivity | symmetry; apply app_nil_r].
Qed.

(** X13: a run of [main] waits at most once, in the rate limiter of the coin
    list and only when the list is fetched anew less than a second after the
    fetch before; the wait is what is missing to the second.  No back-off of
    the retry policy is ever slept. *)
Theorem main_waits_at_most_once (polarity : string -> Q) (inp : Inputs) (w : World) :
  slept (main polarity inp w).2
  = slept w ++
    (if live CallAllCoins w then []
     else if Qltb 0 (coin_list_wait w) then [coin_list_wait w] else []).
Proof.
  destruct (fetch_all_coins_returns (at_coin_selector w))
    as (coins & w1 & Hrun & Hcall).
  rewrite main_split. unfold bind at 1. rewrite Hrun.
  destruct (main_after_coins_effects polarity inp coins w1) as (-> & _).
  change (live CallAllCoins w) with (live CallAllCoins (at_coin_selector w)).
  destruct (live CallAllCoins (at_coin_selector w)) eqn:Hlive.
  - unfold live in Hlive.
    destruct (cached_entry CallAllCoins (at_coin_selector w))
      as [[v stored]|] eqn:Hentry; [| discriminate].
    apply Qltb_lt in Hlive.
    rewrite (call_run_hit _ _ v stored Hentry Hlive) in Hcall.
    inversion Hcall; subst. rewrite app_nil_r. reflexivity.
  - destruct (call_miss_stores CallAllCoins (at_coin_selector w) Hlive)
      as (v & w0 & Hrun' & _ & _ & _ & _ & _ & Hslept & _).
    rewrite Hrun' in Hcall. inversion Hcall; subst.
    cbn [slept set_cache_all_coins].
    rewrite Hslept. cbn [before_request]. rewrite rate_gate_slept. reflexivity.
Qed.
